(** * VSTGUI input events (vstgui/lib/events.h)

    A shallow embedding of the event hierarchy of [events.h]: the
    [EventType] discriminant, the consumption flag, the [Modifiers] and
    [MouseEventButtonState] bit sets, the event structs, the query casts
    and the helpers that bridge to the legacy button state and key code.

    Every [uint32_t] is an integer of [Z]; where the C++ arithmetic can
    leave the 32 bit range the wrap-around is written out. *)

From Stdlib Require Import ZArith List Bool Lia.
Import ListNotations.
Local Open Scope Z_scope.

(** ** Machine integers *)

(** Conversion of an integer to [uint32_t]. *)
Definition to_uint32 (z : Z) : Z := z mod 2 ^ 32.

(** Conversion of an integer to [int32_t] (two's complement). *)
Definition to_int32 (z : Z) : Z := (z + 2 ^ 31) mod 2 ^ 32 - 2 ^ 31.

(** Conversion of an integer to [unsigned char]. *)
Definition to_uchar (z : Z) : Z := z mod 2 ^ 8.

(** Contextual conversion of an integer to [bool]: non-zero is true. *)
Definition to_bool (z : Z) : bool := negb (z =? 0).

(** [~x] on a [uint32_t]. *)
Definition not32 (x : Z) : Z := to_uint32 (Z.lnot x).

(** The values a [uint32_t] member can hold. *)
Definition is_uint32 (z : Z) : Prop := 0 <= z < 2 ^ 32.

(** ** EventType *)

Module EventType.

Inductive t : Set :=
| Unknown
| MouseDown
| MouseMove
| MouseUp
| MouseCancel
| MouseEnter
| MouseExit
| MouseWheel
| ZoomGesture
| KeyUp
| KeyDown.

(** The enumerators carry no initialiser: they count up from zero. *)
Definition value (e : t) : Z :=
  match e with
  | Unknown => 0
  | MouseDown => 1
  | MouseMove => 2
  | MouseUp => 3
  | MouseCancel => 4
  | MouseEnter => 5
  | MouseExit => 6
  | MouseWheel => 7
  | ZoomGesture => 8
  | KeyUp => 9
  | KeyDown => 10
  end.

Definition all : list t :=
  [Unknown; MouseDown; MouseMove; MouseUp; MouseCancel; MouseEnter;
   MouseExit; MouseWheel; ZoomGesture; KeyUp; KeyDown].

Definition eqb (a b : t) : bool := value a =? value b.

End EventType.

(** ** EventConsumeState *)

Module EventConsumeState.

Definition NotHandled : Z := 0.
Definition Handled : Z := 1.
Definition Last : Z := 2.

Record t : Set := Build { data : Z }.

(** [uint32_t data {NotHandled}] *)
Definition init : t := {| data := NotHandled |}.

(** [void operator= (bool state)] *)
Definition assign (state : bool) (self : t) : t :=
  {| data := if state then Handled else NotHandled |}.

(** [operator bool ()] *)
Definition operator_bool (self : t) : bool :=
  to_bool (Z.land (data self) Handled).

(** [void reset ()] *)
Definition reset (self : t) : t := {| data := NotHandled |}.

End EventConsumeState.

(** ** ModifierKey *)

Module ModifierKey.

Inductive t : Set :=
| Shift
| Alt
| Control
| Super
| None.

(** The enumerator values, [1 << 0] to [1 << 3] and [0]. *)
Definition value (m : t) : Z :=
  match m with
  | Shift => Z.shiftl 1 0
  | Alt => Z.shiftl 1 1
  | Control => Z.shiftl 1 2
  | Super => Z.shiftl 1 3
  | None => 0
  end.

(** The position of the bit of a modifier key; [None] has no bit. *)
Definition bit (m : t) : option Z :=
  match m with
  | Shift => Some 0
  | Alt => Some 1
  | Control => Some 2
  | Super => Some 3
  | None => Datatypes.None
  end.

Definition eqb (a b : t) : bool := value a =? value b.

End ModifierKey.

(** ** Modifiers *)

Module Modifiers.

Record t : Set := Build { data : Z }.

(** [static uint32_t cast (ModifierKey mod)] *)
Definition cast (mod_ : ModifierKey.t) : Z := ModifierKey.value mod_.

(** [Modifiers () = default], with [uint32_t data {0}]. *)
Definition init : t := {| data := 0 |}.

Definition empty (self : t) : bool := data self =? 0.

Definition has (modifier : ModifierKey.t) (self : t) : bool :=
  to_bool (Z.land (data self) (cast modifier)).

Definition is_ (modifier : ModifierKey.t) (self : t) : bool :=
  data self =? cast modifier.

(** [bool is (const std::initializer_list<ModifierKey>& modifiers)]: the
    loop [for (auto& mod : modifiers) d |= cast (mod)] from [d = 0]. *)
Definition is_list (modifiers : list ModifierKey.t) (self : t) : bool :=
  let d := fold_left (fun d mod_ => Z.lor d (cast mod_)) modifiers 0 in
  data self =? d.

(** [bool operator| (ModifierKey modifier)] *)
Definition operator_or (modifier : ModifierKey.t) (self : t) : bool :=
  has modifier self.

(** [bool operator== (ModifierKey modifier)] *)
Definition operator_eq (modifier : ModifierKey.t) (self : t) : bool :=
  is_ modifier self.

Definition add (modifier : ModifierKey.t) (self : t) : t :=
  {| data := Z.lor (data self) (cast modifier) |}.

Definition remove (modifier : ModifierKey.t) (self : t) : t :=
  {| data := Z.land (data self) (not32 (cast modifier)) |}.

Definition clear (self : t) : t := {| data := 0 |}.

(** [Modifiers& operator= (ModifierKey modifier)] *)
Definition assign (modifier : ModifierKey.t) (self : t) : t :=
  {| data := cast modifier |}.

End Modifiers.

(** ** MouseEventButtonState *)

Module MouseEventButtonState.

Inductive Position : Set :=
| Left
| Middle
| Right
| Fourth
| Fifth.

(** The enumerator values, [1 << 1] to [1 << 5]. *)
Definition value (pos : Position) : Z :=
  match pos with
  | Left => Z.shiftl 1 1
  | Middle => Z.shiftl 1 2
  | Right => Z.shiftl 1 3
  | Fourth => Z.shiftl 1 4
  | Fifth => Z.shiftl 1 5
  end.

(** The position of the bit of a button. *)
Definition bit (pos : Position) : Z :=
  match pos with
  | Left => 1
  | Middle => 2
  | Right => 3
  | Fourth => 4
  | Fifth => 5
  end.

Definition Position_eqb (a b : Position) : bool := value a =? value b.

Record t : Set := Build { data : Z }.

(** [MouseEventButtonState () = default], with [uint32_t data {0}]. *)
Definition init : t := {| data := 0 |}.

Definition isLeft (self : t) : bool := data self =? value Left.
Definition isMiddle (self : t) : bool := data self =? value Middle.
Definition isRight (self : t) : bool := data self =? value Right.
Definition is_ (pos : Position) (self : t) : bool := data self =? value pos.
Definition has (pos : Position) (self : t) : bool :=
  to_bool (Z.land (data self) (value pos)).
Definition empty (self : t) : bool := data self =? 0.

Definition add (pos : Position) (self : t) : t :=
  {| data := Z.lor (data self) (value pos) |}.
Definition set (pos : Position) (self : t) : t := {| data := value pos |}.
Definition clear (self : t) : t := {| data := 0 |}.

(** [MouseEventButtonState (Position pos) { set (pos); }] *)
Definition of_Position (pos : Position) : t := set pos init.

(** [operator==] and [operator!=] *)
Definition operator_eq (self other : t) : bool := data self =? data other.
Definition operator_ne (self other : t) : bool :=
  negb (data self =? data other).

(** [bool isOther (uint32_t index) const { return data == (1 << index); }].
    The shift is one of the [int] 1 and has a value for an index below 32
    only; the comparison converts it to [uint32_t]. *)
Definition isOther (index : Z) (self : t) : option bool :=
  if index <? 32
  then Some (data self =? to_uint32 (Z.shiftl 1 index))
  else None.

End MouseEventButtonState.

(** ** VirtualKey *)

(** [enum class VirtualKey : uint32_t].  A key code reaches the toolkit
    from the platform layer as a number, so a [VirtualKey] is modelled by
    the value of its underlying type; the enumerators count up from
    [None = 0] in the order of the source. *)
Module VirtualKey.

Definition t : Set := Z.

Definition None : t := 0.
Definition Back : t := 1.
Definition Tab : t := 2.
Definition Clear : t := 3.
Definition Return : t := 4.
Definition Pause : t := 5.
Definition Escape : t := 6.
Definition Space : t := 7.
Definition Next : t := 8.
Definition End_ : t := 9.
Definition Home : t := 10.
Definition Left : t := 11.
Definition Up : t := 12.
Definition Right : t := 13.
Definition Down : t := 14.
Definition PageUp : t := 15.
Definition PageDown : t := 16.
Definition Select : t := 17.
Definition Print_ : t := 18.
Definition Enter : t := 19.
Definition Snapshot : t := 20.
Definition Insert : t := 21.
Definition Delete : t := 22.
Definition Help : t := 23.
Definition NumPad0 : t := 24.
Definition NumPad1 : t := 25.
Definition NumPad2 : t := 26.
Definition NumPad3 : t := 27.
Definition NumPad4 : t := 28.
Definition NumPad5 : t := 29.
Definition NumPad6 : t := 30.
Definition NumPad7 : t := 31.
Definition NumPad8 : t := 32.
Definition NumPad9 : t := 33.
Definition Multiply : t := 34.
Definition Add : t := 35.
Definition Separator : t := 36.
Definition Subtract : t := 37.
Definition Decimal : t := 38.
Definition Divide : t := 39.
Definition F1 : t := 40.
Definition F2 : t := 41.
Definition F3 : t := 42.
Definition F4 : t := 43.
Definition F5 : t := 44.
Definition F6 : t := 45.
Definition F7 : t := 46.
Definition F8 : t := 47.
Definition F9 : t := 48.
Definition F10 : t := 49.
Definition F11 : t := 50.
Definition F12 : t := 51.
Definition NumLock : t := 52.
Definition Scroll : t := 53.
Definition ShiftModifier : t := 54.
Definition ControlModifier : t := 55.
Definition AltModifier : t := 56.
Definition Equals : t := 57.

(** The enumerators, in the order of the source. *)
Definition enumerators : list t :=
  [None; Back; Tab; Clear; Return; Pause; Escape; Space; Next; End_; Home;
   Left; Up; Right; Down; PageUp; PageDown;
   Select; Print_; Enter; Snapshot; Insert; Delete; Help;
   NumPad0; NumPad1; NumPad2; NumPad3; NumPad4; NumPad5; NumPad6; NumPad7;
   NumPad8; NumPad9;
   Multiply; Add; Separator; Subtract; Decimal; Divide;
   F1; F2; F3; F4; F5; F6; F7; F8; F9; F10; F11; F12; NumLock; Scroll;
   ShiftModifier; ControlModifier; AltModifier;
   Equals].

End VirtualKey.

(** ** GestureEvent::Phase *)

Module Phase.

Inductive t : Set :=
| Unknown
| Begin
| Changed
| End_.

End Phase.

(** [MouseWheelEvent::Flags] *)
Module MouseWheelFlags.

Definition DirectionInvertedFromDevice : Z := Z.shiftl 1 0.
Definition PreciseDeltas : Z := Z.shiftl 1 1.

End MouseWheelFlags.

(** ** The event structs *)

Section Events.

(** [cpoint.h] and [vstguifwd.h] are not part of these sources: the point
    type, its default-constructed value, the coordinate type with its
    literal [0.] and the type [double] are kept abstract. *)
Variable CPoint : Type.
Variable CPoint_init : CPoint.
Variable CCoord : Type.
Variable CCoord_zero : CCoord.
Variable double : Type.

Record Event : Set := Build_Event {
  type : EventType.t;
  id : Z;
  timestamp : Z;
  consumed : EventConsumeState.t
}.

Record ModifierEvent : Set := Build_ModifierEvent {
  ModifierEvent_base : Event;
  modifiers : Modifiers.t
}.

Record MousePositionEvent : Type := Build_MousePositionEvent {
  MousePositionEvent_base : ModifierEvent;
  mousePosition : CPoint
}.

Record MouseEvent : Type := Build_MouseEvent {
  MouseEvent_base : MousePositionEvent;
  buttonState : MouseEventButtonState.t
}.

Record MouseDownEvent : Type := Build_MouseDownEvent {
  MouseDownEvent_base : MouseEvent;
  clickCount : Z
}.

Record MouseWheelEvent : Type := Build_MouseWheelEvent {
  MouseWheelEvent_base : MousePositionEvent;
  deltaX : CCoord;
  deltaY : CCoord;
  flags : Z
}.

Record GestureEvent : Type := Build_GestureEvent {
  GestureEvent_base : MousePositionEvent;
  phase : Phase.t
}.

Record ZoomGestureEvent : Type := Build_ZoomGestureEvent {
  ZoomGestureEvent_base : GestureEvent;
  zoom : double
}.

Record KeyboardEvent : Set := Build_KeyboardEvent {
  KeyboardEvent_base : ModifierEvent;
  character : Z;
  virt : VirtualKey.t;
  isRepeat : bool
}.

(** *** Member assignment through the inheritance chain *)

Definition Event_set_type (t : EventType.t) (e : Event) : Event :=
  {| type := t; id := id e; timestamp := timestamp e;
     consumed := consumed e |}.

Definition Event_set_consumed (c : EventConsumeState.t) (e : Event)
  : Event :=
  {| type := type e; id := id e; timestamp := timestamp e; consumed := c |}.

Definition ModifierEvent_map (f : Event -> Event) (e : ModifierEvent)
  : ModifierEvent :=
  {| ModifierEvent_base := f (ModifierEvent_base e);
     modifiers := modifiers e |}.

Definition ModifierEvent_set_modifiers (mods : Modifiers.t)
  (e : ModifierEvent) : ModifierEvent :=
  {| ModifierEvent_base := ModifierEvent_base e; modifiers := mods |}.

Definition MousePositionEvent_map (f : ModifierEvent -> ModifierEvent)
  (e : MousePositionEvent) : MousePositionEvent :=
  {| MousePositionEvent_base := f (MousePositionEvent_base e);
     mousePosition := mousePosition e |}.

Definition MousePositionEvent_set_mousePosition (pos : CPoint)
  (e : MousePositionEvent) : MousePositionEvent :=
  {| MousePositionEvent_base := MousePositionEvent_base e;
     mousePosition := pos |}.

Definition MouseEvent_map (f : MousePositionEvent -> MousePositionEvent)
  (e : MouseEvent) : MouseEvent :=
  {| MouseEvent_base := f (MouseEvent_base e);
     buttonState := buttonState e |}.

Definition MouseEvent_set_buttonState (buttons : MouseEventButtonState.t)
  (e : MouseEvent) : MouseEvent :=
  {| MouseEvent_base := MouseEvent_base e; buttonState := buttons |}.

Definition MouseDownEvent_map (f : MouseEvent -> MouseEvent)
  (e : MouseDownEvent) : MouseDownEvent :=
  {| MouseDownEvent_base := f (MouseDownEvent_base e);
     clickCount := clickCount e |}.

Definition MouseDownEvent_set_clickCount (n : Z) (e : MouseDownEvent)
  : MouseDownEvent :=
  {| MouseDownEvent_base := MouseDownEvent_base e; clickCount := n |}.

Definition MouseWheelEvent_map
  (f : MousePositionEvent -> MousePositionEvent) (e : MouseWheelEvent)
  : MouseWheelEvent :=
  {| MouseWheelEvent_base := f (MouseWheelEvent_base e);
     deltaX := deltaX e; deltaY := deltaY e; flags := flags e |}.

Definition GestureEvent_map
  (f : MousePositionEvent -> MousePositionEvent) (e : GestureEvent)
  : GestureEvent :=
  {| GestureEvent_base := f (GestureEvent_base e); phase := phase e |}.

Definition ZoomGestureEvent_map (f : GestureEvent -> GestureEvent)
  (e : ZoomGestureEvent) : ZoomGestureEvent :=
  {| ZoomGestureEvent_base := f (ZoomGestureEvent_base e); zoom := zoom e |}.

Definition KeyboardEvent_map (f : ModifierEvent -> ModifierEvent)
  (e : KeyboardEvent) : KeyboardEvent :=
  {| KeyboardEvent_base := f (KeyboardEvent_base e);
     character := character e; virt := virt e; isRepeat := isRepeat e |}.

(** The [Event] members of each struct, and an update of them in place. *)
Definition MousePositionEvent_event (e : MousePositionEvent) : Event :=
  ModifierEvent_base (MousePositionEvent_base e).
Definition MouseEvent_event (e : MouseEvent) : Event :=
  MousePositionEvent_event (MouseEvent_base e).
Definition MouseDownEvent_event (e : MouseDownEvent) : Event :=
  MouseEvent_event (MouseDownEvent_base e).
Definition MouseWheelEvent_event (e : MouseWheelEvent) : Event :=
  MousePositionEvent_event (MouseWheelEvent_base e).
Definition GestureEvent_event (e : GestureEvent) : Event :=
  MousePositionEvent_event (GestureEvent_base e).
Definition ZoomGestureEvent_event (e : ZoomGestureEvent) : Event :=
  GestureEvent_event (ZoomGestureEvent_base e).
Definition KeyboardEvent_event (e : KeyboardEvent) : Event :=
  ModifierEvent_base (KeyboardEvent_base e).

Definition MousePositionEvent_on_event (f : Event -> Event)
  : MousePositionEvent -> MousePositionEvent :=
  MousePositionEvent_map (ModifierEvent_map f).
Definition MouseEvent_on_event (f : Event -> Event)
  : MouseEvent -> MouseEvent :=
  MouseEvent_map (MousePositionEvent_on_event f).
Definition MouseDownEvent_on_event (f : Event -> Event)
  : MouseDownEvent -> MouseDownEvent :=
  MouseDownEvent_map (MouseEvent_on_event f).
Definition MouseWheelEvent_on_event (f : Event -> Event)
  : MouseWheelEvent -> MouseWheelEvent :=
  MouseWheelEvent_map (MousePositionEvent_on_event f).
Definition GestureEvent_on_event (f : Event -> Event)
  : GestureEvent -> GestureEvent :=
  GestureEvent_map (MousePositionEvent_on_event f).
Definition ZoomGestureEvent_on_event (f : Event -> Event)
  : ZoomGestureEvent -> ZoomGestureEvent :=
  ZoomGestureEvent_map (GestureEvent_on_event f).
Definition KeyboardEvent_on_event (f : Event -> Event)
  : KeyboardEvent -> KeyboardEvent :=
  KeyboardEvent_map (ModifierEvent_map f).

(** [event.consumed = state] *)
Definition Event_assign_consumed (state : bool) (e : Event) : Event :=
  Event_set_consumed (EventConsumeState.assign state (consumed e)) e.

(** [bool (event.consumed)] *)
Definition Event_is_consumed (e : Event) : bool :=
  EventConsumeState.operator_bool (consumed e).

(** *** Constructors

    [Event::Event ()] is declared in the header and defined elsewhere; it
    gives the event its [id] and [timestamp], which are arguments here.
    The default member initialisers set the other two members. *)
Definition Event_ctor (id0 timestamp0 : Z) : Event :=
  {| type := EventType.Unknown; id := id0; timestamp := timestamp0;
     consumed := EventConsumeState.init |}.

Definition ModifierEvent_ctor (id0 timestamp0 : Z) : ModifierEvent :=
  {| ModifierEvent_base := Event_ctor id0 timestamp0;
     modifiers := Modifiers.init |}.

Definition MousePositionEvent_ctor (id0 timestamp0 : Z)
  : MousePositionEvent :=
  {| MousePositionEvent_base := ModifierEvent_ctor id0 timestamp0;
     mousePosition := CPoint_init |}.

Definition MouseEvent_ctor (id0 timestamp0 : Z) : MouseEvent :=
  {| MouseEvent_base := MousePositionEvent_ctor id0 timestamp0;
     buttonState := MouseEventButtonState.init |}.

Definition MouseEvent_set_mousePosition (pos : CPoint)
  : MouseEvent -> MouseEvent :=
  MouseEvent_map (MousePositionEvent_set_mousePosition pos).

Definition MouseEvent_set_modifiers (mods : Modifiers.t)
  : MouseEvent -> MouseEvent :=
  MouseEvent_map (MousePositionEvent_map (ModifierEvent_set_modifiers mods)).

(** [MouseEnterEvent () { type = EventType::MouseEnter; }] *)
Definition MouseEnterEvent_ctor (id0 timestamp0 : Z) : MouseEvent :=
  MouseEvent_on_event (Event_set_type EventType.MouseEnter)
    (MouseEvent_ctor id0 timestamp0).

(** [MouseEnterEvent (CPoint pos, MouseEventButtonState buttons,
    Modifiers mods)] *)
Definition MouseEnterEvent_ctor_pos (id0 timestamp0 : Z) (pos : CPoint)
  (buttons : MouseEventButtonState.t) (mods : Modifiers.t) : MouseEvent :=
  MouseEvent_set_modifiers mods
    (MouseEvent_set_buttonState buttons
       (MouseEvent_set_mousePosition pos
          (MouseEnterEvent_ctor id0 timestamp0))).


(** [MouseExitEvent () { type = EventType::MouseExit; }] *)
Definition MouseExitEvent_ctor (id0 timestamp0 : Z) : MouseEvent :=
  MouseEvent_on_event (Event_set_type EventType.MouseExit)
    (MouseEvent_ctor id0 timestamp0).

Definition MouseExitEvent_ctor_pos (id0 timestamp0 : Z) (pos : CPoint)
  (buttons : MouseEventButtonState.t) (mods : Modifiers.t) : MouseEvent :=
  MouseEvent_set_modifiers mods
    (MouseEvent_set_buttonState buttons
       (MouseEvent_set_mousePosition pos
          (MouseExitEvent_ctor id0 timestamp0))).


(** [MouseDownEvent () { type = EventType::MouseDown; }], with
    [uint32_t clickCount {0}]. *)
Definition MouseDownEvent_ctor (id0 timestamp0 : Z) : MouseDownEvent :=
  MouseDownEvent_on_event (Event_set_type EventType.MouseDown)
    {| MouseDownEvent_base := MouseEvent_ctor id0 timestamp0;
       clickCount := 0 |}.

(** The two assignments [mousePosition = pos; buttonState = buttons;] of
    the second constructor of the mouse down, move and up events. *)
Definition MouseDownEvent_set_pos_buttons (pos : CPoint)
  (buttons : MouseEventButtonState.t) : MouseDownEvent -> MouseDownEvent :=
  MouseDownEvent_map
    (fun e => MouseEvent_set_buttonState buttons
                (MouseEvent_set_mousePosition pos e)).

(** [MouseDownEvent (const CPoint& pos, MouseEventButtonState buttons)] *)
Definition MouseDownEvent_ctor_pos (id0 timestamp0 : Z) (pos : CPoint)
  (buttons : MouseEventButtonState.t) : MouseDownEvent :=
  MouseDownEvent_set_pos_buttons pos buttons
    (MouseDownEvent_ctor id0 timestamp0).

(** [MouseMoveEvent () { type = EventType::MouseMove; }], on top of the
    [MouseDownEvent] base. *)
Definition MouseMoveEvent_ctor (id0 timestamp0 : Z) : MouseDownEvent :=
  MouseDownEvent_on_event (Event_set_type EventType.MouseMove)
    (MouseDownEvent_ctor id0 timestamp0).

(** [MouseMoveEvent (const CPoint& pos, MouseEventButtonState buttons = {})] *)
Definition MouseMoveEvent_ctor_pos (id0 timestamp0 : Z) (pos : CPoint)
  (buttons : MouseEventButtonState.t) : MouseDownEvent :=
  MouseDownEvent_set_pos_buttons pos buttons
    (MouseMoveEvent_ctor id0 timestamp0).

(** [MouseUpEvent () { type = EventType::MouseUp; }] *)
Definition MouseUpEvent_ctor (id0 timestamp0 : Z) : MouseDownEvent :=
  MouseDownEvent_on_event (Event_set_type EventType.MouseUp)
    (MouseDownEvent_ctor id0 timestamp0).

Definition MouseUpEvent_ctor_pos (id0 timestamp0 : Z) (pos : CPoint)
  (buttons : MouseEventButtonState.t) : MouseDownEvent :=
  MouseDownEvent_set_pos_buttons pos buttons
    (MouseUpEvent_ctor id0 timestamp0).

(** [MouseCancelEvent () { type = EventType::MouseCancel; }] *)
Definition MouseCancelEvent_ctor (id0 timestamp0 : Z) : Event :=
  Event_set_type EventType.MouseCancel (Event_ctor id0 timestamp0).

(** [MouseWheelEvent () { type = EventType::MouseWheel; }] *)
Definition MouseWheelEvent_ctor (id0 timestamp0 : Z) : MouseWheelEvent :=
  MouseWheelEvent_on_event (Event_set_type EventType.MouseWheel)
    {| MouseWheelEvent_base := MousePositionEvent_ctor id0 timestamp0;
       deltaX := CCoord_zero; deltaY := CCoord_zero; flags := 0 |}.

Definition GestureEvent_ctor (id0 timestamp0 : Z) : GestureEvent :=
  {| GestureEvent_base := MousePositionEvent_ctor id0 timestamp0;
     phase := Phase.Unknown |}.

(** [ZoomGestureEvent () { type = EventType::ZoomGesture; }].  The member
    [zoom] has no initialiser; the value it happens to hold is [zoom0]. *)
Definition ZoomGestureEvent_ctor (id0 timestamp0 : Z) (zoom0 : double)
  : ZoomGestureEvent :=
  ZoomGestureEvent_on_event (Event_set_type EventType.ZoomGesture)
    {| ZoomGestureEvent_base := GestureEvent_ctor id0 timestamp0;
       zoom := zoom0 |}.

(** [KeyboardEvent (EventType t = EventType::KeyDown) { type = t; }] *)
Definition KeyboardEvent_ctor (id0 timestamp0 : Z) (t : EventType.t)
  : KeyboardEvent :=
  KeyboardEvent_on_event (Event_set_type t)
    {| KeyboardEvent_base := ModifierEvent_ctor id0 timestamp0;
       character := 0; virt := VirtualKey.None; isRepeat := false |}.

Definition KeyboardEvent_ctor_default (id0 timestamp0 : Z) : KeyboardEvent :=
  KeyboardEvent_ctor id0 timestamp0 EventType.KeyDown.

(** *** MouseDownEvent: the follow-up flag *)

Definition IgnoreFollowUpEvents : Z := EventConsumeState.Last.
Definition IgnoreFollowUpEventsBit : Z := Z.shiftl 1 IgnoreFollowUpEvents.

(** The two branches of [void ignoreFollowUpMoveAndUpEvents (bool state)]
    on [consumed.data]. *)
Definition ignoreFollowUp_data (state : bool) (c : EventConsumeState.t)
  : EventConsumeState.t :=
  if state
  then {| EventConsumeState.data :=
            Z.lor (EventConsumeState.data c) IgnoreFollowUpEventsBit |}
  else {| EventConsumeState.data :=
            Z.land (EventConsumeState.data c)
                   (not32 IgnoreFollowUpEventsBit) |}.

(** [void ignoreFollowUpMoveAndUpEvents (bool state)] *)
Definition set_ignoreFollowUpMoveAndUpEvents (state : bool)
  : MouseDownEvent -> MouseDownEvent :=
  MouseDownEvent_on_event
    (fun e => Event_set_consumed (ignoreFollowUp_data state (consumed e)) e).

(** [bool ignoreFollowUpMoveAndUpEvents ()] *)
Definition ignoreFollowUpMoveAndUpEvents (e : MouseDownEvent) : bool :=
  to_bool (Z.land (EventConsumeState.data (consumed (MouseDownEvent_event e)))
                  IgnoreFollowUpEventsBit).

(** [event.consumed = state] on a mouse down event. *)
Definition MouseDownEvent_assign_consumed (state : bool)
  : MouseDownEvent -> MouseDownEvent :=
  MouseDownEvent_on_event (Event_assign_consumed state).

(** *** Objects and references

    An [Event&] refers to the [Event] base of some complete object.  The
    complete objects of this header are told apart by their members:
    [MouseEnterEvent] and [MouseExitEvent] add none to [MouseEvent],
    [MouseMoveEvent] and [MouseUpEvent] none to [MouseDownEvent], and
    [MouseCancelEvent] none to [Event]. *)
Inductive Object : Type :=
| ObjEvent (e : Event)
| ObjModifierEvent (e : ModifierEvent)
| ObjMousePositionEvent (e : MousePositionEvent)
| ObjMouseEvent (e : MouseEvent)
| ObjMouseDownEvent (e : MouseDownEvent)
| ObjMouseWheelEvent (e : MouseWheelEvent)
| ObjGestureEvent (e : GestureEvent)
| ObjZoomGestureEvent (e : ZoomGestureEvent)
| ObjKeyboardEvent (e : KeyboardEvent).

(** The [Event] base every object has: what [event.type] reads. *)
Definition Event_of (o : Object) : Event :=
  match o with
  | ObjEvent e => e
  | ObjModifierEvent e => ModifierEvent_base e
  | ObjMousePositionEvent e => MousePositionEvent_event e
  | ObjMouseEvent e => MouseEvent_event e
  | ObjMouseDownEvent e => MouseDownEvent_event e
  | ObjMouseWheelEvent e => MouseWheelEvent_event e
  | ObjGestureEvent e => GestureEvent_event e
  | ObjZoomGestureEvent e => ZoomGestureEvent_event e
  | ObjKeyboardEvent e => KeyboardEvent_event e
  end.

(** What a pointer of each struct type reads at the address of an object:
    the base subobject of that type, or nothing where the object has none
    (there the [static_cast] that made the pointer has no defined
    behaviour). *)
Definition MousePositionEvent_of (o : Object) : option MousePositionEvent :=
  match o with
  | ObjMousePositionEvent e => Some e
  | ObjMouseEvent e => Some (MouseEvent_base e)
  | ObjMouseDownEvent e => Some (MouseEvent_base (MouseDownEvent_base e))
  | ObjMouseWheelEvent e => Some (MouseWheelEvent_base e)
  | ObjGestureEvent e => Some (GestureEvent_base e)
  | ObjZoomGestureEvent e => Some (GestureEvent_base (ZoomGestureEvent_base e))
  | ObjEvent _ | ObjModifierEvent _ | ObjKeyboardEvent _ => None
  end.

Definition ModifierEvent_of (o : Object) : option ModifierEvent :=
  match o with
  | ObjModifierEvent e => Some e
  | ObjKeyboardEvent e => Some (KeyboardEvent_base e)
  | ObjEvent _ => None
  | _ => option_map MousePositionEvent_base (MousePositionEvent_of o)
  end.

Definition MouseEvent_of (o : Object) : option MouseEvent :=
  match o with
  | ObjMouseEvent e => Some e
  | ObjMouseDownEvent e => Some (MouseDownEvent_base e)
  | _ => None
  end.

Definition MouseDownEvent_of (o : Object) : option MouseDownEvent :=
  match o with
  | ObjMouseDownEvent e => Some e
  | _ => None
  end.

Definition KeyboardEvent_of (o : Object) : option KeyboardEvent :=
  match o with
  | ObjKeyboardEvent e => Some e
  | _ => None
  end.

(** *** Query casts

    Each returns [nullptr] ([None]) or the address of its argument
    ([Some event]), decided by a [switch] on [event.type] alone. *)
Definition asMousePositionEvent (event : Object) : option Object :=
  match type (Event_of event) with
  | EventType.ZoomGesture => Some event
  | EventType.MouseWheel => Some event
  | EventType.MouseDown => Some event
  | EventType.MouseMove => Some event
  | EventType.MouseUp => Some event
  | EventType.MouseEnter => Some event
  | EventType.MouseExit => Some event
  | _ => None
  end.

Definition asMouseEvent (event : Object) : option Object :=
  match type (Event_of event) with
  | EventType.MouseDown => Some event
  | EventType.MouseMove => Some event
  | EventType.MouseUp => Some event
  | EventType.MouseEnter => Some event
  | EventType.MouseExit => Some event
  | _ => None
  end.

Definition asMouseDownEvent (event : Object) : option Object :=
  match type (Event_of event) with
  | EventType.MouseDown => Some event
  | EventType.MouseMove => Some event
  | EventType.MouseUp => Some event
  | _ => None
  end.

Definition asModifierEvent (event : Object) : option Object :=
  match type (Event_of event) with
  | EventType.KeyDown => Some event
  | EventType.KeyUp => Some event
  | EventType.MouseWheel => Some event
  | EventType.MouseDown => Some event
  | EventType.MouseMove => Some event
  | EventType.MouseUp => Some event
  | _ => None
  end.

Definition asKeyboardEvent (event : Object) : option Object :=
  match type (Event_of event) with
  | EventType.KeyDown => Some event
  | EventType.KeyUp => Some event
  | _ => None
  end.

(** *** Assert casts: the conditions under [vstgui_assert] *)

Definition castMousePositionEvent_assert (event : Object) : bool :=
  let t := EventType.value (type (Event_of event)) in
  (EventType.value EventType.MouseDown <=? t)
  && (t <=? EventType.value EventType.ZoomGesture).

Definition castMouseEvent_assert (event : Object) : bool :=
  let t := EventType.value (type (Event_of event)) in
  (EventType.value EventType.MouseDown <=? t)
  && (t <=? EventType.value EventType.MouseExit).

Definition castKeyboardEvent_assert (event : Object) : bool :=
  EventType.eqb (type (Event_of event)) EventType.KeyDown
  || EventType.eqb (type (Event_of event)) EventType.KeyUp.

(** [noEvent ()]: a reference to the function's [static Event e]. *)
Definition noEvent (id0 timestamp0 : Z) : Object :=
  ObjEvent (Event_ctor id0 timestamp0).

(** ** Bridging to the legacy button state and key code *)

(** Modelled from the spec: [cbuttonstate.h] is not part of these sources.
    The legacy button state is the "one flat mask" of the specification:
    an integer that is empty when default-constructed and into which
    [state |= k] ors the bits of [k]. *)
Definition CButtonState : Set := Z.
Definition CButtonState_init : CButtonState := 0.
Definition CButtonState_or (state k : CButtonState) : CButtonState :=
  Z.lor state k.

(** The [CButton] constants of [cbuttonstate.h] that the header uses. *)
Variables kControl kShift kAlt : Z.
Variables kLButton kRButton kMButton kButton4 kButton5 : Z.
Variable kDoubleClick : Z.

Definition buttonStateFromEventModifiers (mods : Modifiers.t)
  : CButtonState :=
  let state := CButtonState_init in
  let state := if Modifiers.has ModifierKey.Control mods
               then CButtonState_or state kControl else state in
  let state := if Modifiers.has ModifierKey.Shift mods
               then CButtonState_or state kShift else state in
  let state := if Modifiers.has ModifierKey.Alt mods
               then CButtonState_or state kAlt else state in
  state.

(** The five tests of [event.buttonState] in [buttonStateFromMouseEvent]. *)
Definition buttonStateFromButtons (buttons : MouseEventButtonState.t)
  (state : CButtonState) : CButtonState :=
  let state := if MouseEventButtonState.has MouseEventButtonState.Left buttons
               then CButtonState_or state kLButton else state in
  let state := if MouseEventButtonState.has MouseEventButtonState.Right buttons
               then CButtonState_or state kRButton else state in
  let state := if MouseEventButtonState.has MouseEventButtonState.Middle buttons
               then CButtonState_or state kMButton else state in
  let state := if MouseEventButtonState.has MouseEventButtonState.Fourth buttons
               then CButtonState_or state kButton4 else state in
  let state := if MouseEventButtonState.has MouseEventButtonState.Fifth buttons
               then CButtonState_or state kButton5 else state in
  state.

(** [buttonStateFromMouseEvent (const MouseEvent& event)].  The argument is
    the object the reference points into; the result is [None] where the
    object has no [MouseEvent] base (no such call compiles) and where
    [downEvent->clickCount] would read a [MouseDownEvent] that is not
    there. *)
Definition buttonStateFromMouseEvent (event : Object)
  : option CButtonState :=
  match MouseEvent_of event with
  | None => None
  | Some e =>
      let state :=
        buttonStateFromEventModifiers
          (modifiers (MousePositionEvent_base (MouseEvent_base e))) in
      let state := buttonStateFromButtons (buttonState e) state in
      match asMouseDownEvent event with
      | Some downEvent =>
          match MouseDownEvent_of downEvent with
          | Some d =>
              Some (if 1 <? clickCount d
                    then CButtonState_or state kDoubleClick else state)
          | None => None
          end
      | None => Some state
      end
  end.

Definition toVstVirtualKey (key : VirtualKey.t) : Z :=
  let k := to_uint32 key in
  if k <=? to_uint32 VirtualKey.Equals then to_uchar k else 0.

(** Modelled from the spec: [vstkeycode.h] is not part of these sources.
    The legacy key code holds the character, the "single-byte legacy
    code" of the virtual key and the legacy modifier bits, all zero in
    [VstKeyCode keyCode {}]; as in the header of the VST SDK, the
    character is an [int32_t] and the modifier byte an [unsigned char]. *)
Record VstKeyCode : Set := Build_VstKeyCode {
  VstKeyCode_character : Z;
  VstKeyCode_virt : Z;
  VstKeyCode_modifier : Z
}.

(** The [MODIFIER_*] constants of [vstkeycode.h]. *)
Variables MODIFIER_SHIFT MODIFIER_ALTERNATE : Z.
Variables MODIFIER_CONTROL MODIFIER_COMMAND : Z.

(** [keyCode.modifier |= m] on the [unsigned char] member. *)
Definition modifier_or (modifier m : Z) : Z := to_uchar (Z.lor modifier m).

Definition toVstKeyCode (event : KeyboardEvent) : VstKeyCode :=
  let mods := modifiers (KeyboardEvent_base event) in
  let modifier := 0 in
  let modifier := if Modifiers.has ModifierKey.Shift mods
                  then modifier_or modifier MODIFIER_SHIFT else modifier in
  let modifier := if Modifiers.has ModifierKey.Alt mods
                  then modifier_or modifier MODIFIER_ALTERNATE else modifier in
  let modifier := if Modifiers.has ModifierKey.Control mods
                  then modifier_or modifier MODIFIER_CONTROL else modifier in
  let modifier := if Modifiers.has ModifierKey.Super mods
                  then modifier_or modifier MODIFIER_COMMAND else modifier in
  {| VstKeyCode_character := to_int32 (character event);
     VstKeyCode_virt := toVstVirtualKey (virt event);
     VstKeyCode_modifier := modifier |}.

(** ** The accepted sets as the specification documents them *)

Definition documented_asMousePositionEvent : list EventType.t :=
  [EventType.MouseDown; EventType.MouseMove; EventType.MouseUp;
   EventType.MouseEnter; EventType.MouseExit; EventType.MouseWheel;
   EventType.ZoomGesture].

Definition documented_asMouseEvent : list EventType.t :=
  [EventType.MouseDown; EventType.MouseMove; EventType.MouseUp;
   EventType.MouseEnter; EventType.MouseExit].

Definition documented_asMouseDownEvent : list EventType.t :=
  [EventType.MouseDown; EventType.MouseMove; EventType.MouseUp].

Definition documented_asModifierEvent : list EventType.t :=
  [EventType.KeyDown; EventType.KeyUp; EventType.MouseWheel;
   EventType.MouseDown; EventType.MouseMove; EventType.MouseUp].

Definition documented_asKeyboardEvent : list EventType.t :=
  [EventType.KeyDown; EventType.KeyUp].

(** The discriminants a query cast accepts: those at which it answers a
    non-null pointer for an event of that type. *)
Definition accepts (cast : Object -> option Object) (t : EventType.t) : bool :=
  match cast (ObjEvent (Event_set_type t (Event_ctor 0 0))) with
  | Some _ => true
  | None => false
  end.

(** A set of discriminants is a contiguous range of the enumeration when
    it holds every value between two of its members. *)
Definition contiguous (set : EventType.t -> bool) : Prop :=
  forall a b c : EventType.t,
    set a = true -> set c = true ->
    EventType.value a <= EventType.value b <= EventType.value c ->
    set b = true.

(** A mask holds a flag when all bits of the flag are set in it. *)
Definition holds (mask flag : Z) : Prop := Z.land mask flag = flag.

(** The flags a list of modifier keys stands for, or-ed together. *)
Definition union (modifiers : list ModifierKey.t) : Z :=
  fold_right (fun mod_ d => Z.lor (Modifiers.cast mod_) d) 0 modifiers.

(** The double-click constant is apart from the other constants of the
    button state when it has a bit and shares none with them. *)
Definition double_click_apart : Prop :=
  kDoubleClick <> 0
  /\ Forall (fun k => Z.land k kDoubleClick = 0)
       [kControl; kShift; kAlt; kLButton; kRButton; kMButton; kButton4;
        kButton5].

(** The command constant fits the modifier byte and is apart from the
    other three modifier constants. *)
Definition command_apart : Prop :=
  0 < MODIFIER_COMMAND < 2 ^ 8
  /\ Forall (fun k => Z.land k MODIFIER_COMMAND = 0)
       [MODIFIER_SHIFT; MODIFIER_ALTERNATE; MODIFIER_CONTROL].

(** In an object with a sound tag a discriminant of the mouse down
    family is carried by a [MouseDownEvent] only, as the constructors
    leave it. *)
Definition down_tag_sound (o : Object) : Prop :=
  In (type (Event_of o)) documented_asMouseDownEvent ->
  MouseDownEvent_of o <> None.

(** [event.modifiers = mods] and [event.clickCount = n] together, on a
    mouse down event. *)
Definition MouseDownEvent_set_modifiers_clickCount (mods : Modifiers.t)
  (n : Z) (e : MouseDownEvent) : MouseDownEvent :=
  MouseDownEvent_set_clickCount n
    (MouseDownEvent_map (MouseEvent_set_modifiers mods) e).

(** [event.modifiers = mods] on a keyboard event. *)
Definition KeyboardEvent_set_modifiers (mods : Modifiers.t)
  : KeyboardEvent -> KeyboardEvent :=
  KeyboardEvent_map (ModifierEvent_set_modifiers mods).

(** ** Sequences of operations on the bit sets *)

(** The members of [Modifiers] that change the set. *)
Inductive ModifiersOp : Set :=
| ModAdd (modifier : ModifierKey.t)
| ModRemove (modifier : ModifierKey.t)
| ModClear
| ModAssign (modifier : ModifierKey.t).

Definition Modifiers_step (s : Modifiers.t) (op : ModifiersOp)
  : Modifiers.t :=
  match op with
  | ModAdd m => Modifiers.add m s
  | ModRemove m => Modifiers.remove m s
  | ModClear => Modifiers.clear s
  | ModAssign m => Modifiers.assign m s
  end.

(** The calls of a list, first to last, on a set. *)
Definition Modifiers_run (ops : list ModifiersOp) (s : Modifiers.t)
  : Modifiers.t :=
  fold_left Modifiers_step ops s.

(** A call that puts the key [k] into the set. *)
Definition sets_key (k : ModifierKey.t) (op : ModifiersOp) : bool :=
  match op with
  | ModAdd m | ModAssign m => ModifierKey.eqb k m
  | ModRemove _ | ModClear => false
  end.

(** A call that does not take the key [k] out of the set. *)
Definition keeps_key (k : ModifierKey.t) (op : ModifiersOp) : bool :=
  match op with
  | ModAdd _ => true
  | ModRemove m => negb (ModifierKey.eqb k m)
  | ModClear => false
  | ModAssign m => ModifierKey.eqb k m
  end.

(** The words of [Modifiers] in which only bits of modifier keys are
    set. *)
Definition Modifiers_valid (s : Modifiers.t) : Prop :=
  0 <= Modifiers.data s < 2 ^ 4.

(** The members of [MouseEventButtonState] that change the set. *)
Inductive ButtonOp : Set :=
| ButtonAdd (pos : MouseEventButtonState.Position)
| ButtonSet (pos : MouseEventButtonState.Position)
| ButtonClear.

Definition ButtonState_step (s : MouseEventButtonState.t) (op : ButtonOp)
  : MouseEventButtonState.t :=
  match op with
  | ButtonAdd p => MouseEventButtonState.add p s
  | ButtonSet p => MouseEventButtonState.set p s
  | ButtonClear => MouseEventButtonState.clear s
  end.

Definition ButtonState_run (ops : list ButtonOp)
  (s : MouseEventButtonState.t) : MouseEventButtonState.t :=
  fold_left ButtonState_step ops s.

(** The words of [MouseEventButtonState] in which only bits of the five
    named positions are set. *)
Definition ButtonState_valid (s : MouseEventButtonState.t) : Prop :=
  0 <= MouseEventButtonState.data s < 2 ^ 6
  /\ Z.testbit (MouseEventButtonState.data s) 0 = false.

(** ** Objects as the constructors leave them *)

(** The discriminant of an object is one that a constructor of its
    struct sets: [Unknown] where no constructor body assigns [type],
    and for [KeyboardEvent], whose constructor takes the discriminant,
    the two key events. *)
Definition tag_sound (o : Object) : bool :=
  match o, type (Event_of o) with
  | ObjEvent _, (EventType.Unknown | EventType.MouseCancel) => true
  | ObjModifierEvent _, EventType.Unknown => true
  | ObjMousePositionEvent _, EventType.Unknown => true
  | ObjMouseEvent _,
    (EventType.Unknown | EventType.MouseEnter | EventType.MouseExit) => true
  | ObjMouseDownEvent _,
    (EventType.MouseDown | EventType.MouseMove | EventType.MouseUp) => true
  | ObjMouseWheelEvent _, EventType.MouseWheel => true
  | ObjGestureEvent _, EventType.Unknown => true
  | ObjZoomGestureEvent _, EventType.ZoomGesture => true
  | ObjKeyboardEvent _, (EventType.KeyDown | EventType.KeyUp) => true
  | _, _ => false
  end.

(** *** Assert casts to one struct: the conditions under [vstgui_assert] *)

Definition castMouseDownEvent_assert (event : Object) : bool :=
  EventType.eqb (type (Event_of event)) EventType.MouseDown.
Definition castMouseMoveEvent_assert (event : Object) : bool :=
  EventType.eqb (type (Event_of event)) EventType.MouseMove.
Definition castMouseUpEvent_assert (event : Object) : bool :=
  EventType.eqb (type (Event_of event)) EventType.MouseUp.
Definition castMouseEnterEvent_assert (event : Object) : bool :=
  EventType.eqb (type (Event_of event)) EventType.MouseEnter.
Definition castMouseExitEvent_assert (event : Object) : bool :=
  EventType.eqb (type (Event_of event)) EventType.MouseExit.
Definition castMouseCancelEvent_assert (event : Object) : bool :=
  EventType.eqb (type (Event_of event)) EventType.MouseCancel.
Definition castMouseWheelEvent_assert (event : Object) : bool :=
  EventType.eqb (type (Event_of event)) EventType.MouseWheel.
Definition castZoomGestureEvent_assert (event : Object) : bool :=
  EventType.eqb (type (Event_of event)) EventType.ZoomGesture.

(** What a [MouseWheelEvent*] and a [ZoomGestureEvent*] read at the
    address of an object. *)
Definition MouseWheelEvent_of (o : Object) : option MouseWheelEvent :=
  match o with
  | ObjMouseWheelEvent e => Some e
  | _ => None
  end.

Definition ZoomGestureEvent_of (o : Object) : option ZoomGestureEvent :=
  match o with
  | ObjZoomGestureEvent e => Some e
  | _ => None
  end.

(** ** Constants of the legacy encodings that can be told apart *)

(** Every constant of the list has a bit, and no two share one. *)
Fixpoint pairwise_apart (l : list Z) : Prop :=
  match l with
  | [] => True
  | k :: l' =>
      k <> 0 /\ Forall (fun j => Z.land k j = 0) l' /\ pairwise_apart l'
  end.

Definition button_constants_apart : Prop :=
  pairwise_apart
    [kControl; kShift; kAlt; kLButton; kRButton; kMButton; kButton4;
     kButton5; kDoubleClick].

Definition modifier_constants_apart : Prop :=
  pairwise_apart
    [MODIFIER_SHIFT; MODIFIER_ALTERNATE; MODIFIER_CONTROL; MODIFIER_COMMAND]
  /\ Forall (fun k => 0 <= k < 2 ^ 8)
       [MODIFIER_SHIFT; MODIFIER_ALTERNATE; MODIFIER_CONTROL;
        MODIFIER_COMMAND].

(** ** Moving events

    [Event (Event&&) = default] and [Event& operator= (Event&&) = default]
    move member by member; the four members are scalars (the flag word
    of [consumed] among them), so each is copied from the source, which
    keeps its values. *)
Definition Event_move_ctor (other : Event) : Event :=
  {| type := type other; id := id other; timestamp := timestamp other;
     consumed :=
       {| EventConsumeState.data := EventConsumeState.data (consumed other) |}
  |}.

(** The value of [*this] after [*this = std::move (other)]. *)
Definition Event_move_assign (self other : Event) : Event :=
  {| type := type other; id := id other; timestamp := timestamp other;
     consumed :=
       {| EventConsumeState.data := EventConsumeState.data (consumed other) |}
  |}.

(** An update of the [Event] base of an object, whatever its struct. *)
Definition Object_on_event (f : Event -> Event) (o : Object) : Object :=
  match o with
  | ObjEvent e => ObjEvent (f e)
  | ObjModifierEvent e => ObjModifierEvent (ModifierEvent_map f e)
  | ObjMousePositionEvent e =>
      ObjMousePositionEvent (MousePositionEvent_on_event f e)
  | ObjMouseEvent e => ObjMouseEvent (MouseEvent_on_event f e)
  | ObjMouseDownEvent e => ObjMouseDownEvent (MouseDownEvent_on_event f e)
  | ObjMouseWheelEvent e => ObjMouseWheelEvent (MouseWheelEvent_on_event f e)
  | ObjGestureEvent e => ObjGestureEvent (GestureEvent_on_event f e)
  | ObjZoomGestureEvent e =>
      ObjZoomGestureEvent (ZoomGestureEvent_on_event f e)
  | ObjKeyboardEvent e => ObjKeyboardEvent (KeyboardEvent_on_event f e)
  end.

(** [event = std::move (other)] through an [Event&]: the move assignment
    of [Event] on the [Event] base of the object referred to, which is
    also what the implicit move assignment of a derived struct does to
    that base. *)
Definition Object_move_assign (event : Object) (other : Event) : Object :=
  Object_on_event (fun self => Event_move_assign self other) event.

(** The new object of [Event e (std::move (other))], where [other] is an
    [Event&&] to any object: an [Event] and no more. *)
Definition Object_move_to_Event (other : Object) : Object :=
  ObjEvent (Event_move_ctor (Event_of other)).

(** The new object of the implicit move constructor of the struct of
    [other] itself: the same struct, every member taken from [other], the
    [Event] base by the move constructor of [Event]. *)
Definition Object_move_ctor (other : Object) : Object :=
  Object_on_event Event_move_ctor other.

(** The three constants of [buttonStateFromEventModifiers] can be told
    apart. *)
Definition modifier_buttons_apart : Prop :=
  pairwise_apart [kControl; kShift; kAlt].

(** ** Tactics *)

(** Closes a goal on the bits of a mask [d] or-ed or and-ed with
    constants, once [has] has been turned into [Z.testbit]. *)
Ltac by_bits d :=
  rewrite ?Z.lor_spec, ?Z.land_spec;
  repeat match goal with
         | |- context [Z.testbit d ?i] => destruct (Z.testbit d i)
         end;
  reflexivity.

(** Adds the mirror image of every equation [Z.land a b = 0] at hand. *)
Ltac mirror_apart :=
  repeat match goal with
         | H : Z.land ?a ?b = 0 |- _ =>
             lazymatch goal with
             | _ : Z.land b a = 0 |- _ => fail
             | _ => assert (Z.land b a = 0)
                      by (rewrite Z.land_comm; exact H)
             end
         end.

(** Takes a hypothesis [pairwise_apart l] on an explicit list apart. *)
Ltac open_apart H :=
  cbn [pairwise_apart] in H;
  repeat match type of H with
         | _ /\ _ => let H' := fresh "Hnz" in destruct H as [H' H]
         end;
  repeat match goal with
         | F : Forall _ (_ :: _) |- _ => inversion_clear F
         | F : Forall _ [] |- _ => clear F
         end;
  mirror_apart.

(** * Properties *)

(** ** Bits *)

Lemma to_bool_land_pow2 (x i : Z) :
  0 <= i -> to_bool (Z.land x (2 ^ i)) = Z.testbit x i.
Proof.
  intros Hi. unfold to_bool.
  destruct (Z.testbit x i) eqn:Hbit.
  - destruct (Z.eqb_spec (Z.land x (2 ^ i)) 0) as [Hz|]; [|reflexivity].
    assert (Hb : Z.testbit (Z.land x (2 ^ i)) i = true).
    { rewrite Z.land_spec, Hbit, Z.pow2_bits_eqb, Z.eqb_refl by assumption.
      reflexivity. }
    rewrite Hz, Z.bits_0 in Hb. discriminate.
  - replace (Z.land x (2 ^ i)) with 0; [reflexivity|].
    symmetry. apply Z.bits_inj'. intros n Hn.
    rewrite Z.land_spec, Z.bits_0, Z.pow2_bits_eqb by assumption.
    destruct (Z.eqb_spec i n) as [->|]; [rewrite Hbit|];
      now rewrite ?andb_false_r.
Qed.

Lemma testbit_not32 (x n : Z) :
  0 <= n < 32 -> Z.testbit (not32 x) n = negb (Z.testbit x n).
Proof.
  intros Hn. unfold not32, to_uint32.
  rewrite Z.mod_pow2_bits_low by lia.
  apply Z.lnot_spec. lia.
Qed.

Lemma is_uint32_mod (x : Z) : is_uint32 x <-> x mod 2 ^ 32 = x.
Proof.
  unfold is_uint32. split.
  - intros H. now apply Z.mod_small.
  - intros <-. apply Z.mod_pos_bound. lia.
Qed.

(** [|] and [&] of 32 bit words need no wrap-around. *)
Lemma lor_uint32 (x y : Z) :
  is_uint32 x -> is_uint32 y -> is_uint32 (Z.lor x y).
Proof.
  rewrite !is_uint32_mod. intros Hx Hy.
  rewrite <- !Z.land_ones in * by lia.
  now rewrite Z.land_lor_distr_l, Hx, Hy.
Qed.

Lemma land_uint32 (x y : Z) : is_uint32 x -> is_uint32 (Z.land x y).
Proof.
  rewrite !is_uint32_mod. intros Hx.
  rewrite <- !Z.land_ones in * by lia.
  now rewrite <- Z.land_assoc, (Z.land_comm y), Z.land_assoc, Hx.
Qed.

(** The operations keep the words of the bit sets and of the
    consumption flag within 32 bits. *)
Lemma Modifiers_uint32 (m : ModifierKey.t) (s : Modifiers.t) :
  is_uint32 (Modifiers.data s) ->
  is_uint32 (Modifiers.data (Modifiers.add m s))
  /\ is_uint32 (Modifiers.data (Modifiers.remove m s))
  /\ is_uint32 (Modifiers.data (Modifiers.clear s))
  /\ is_uint32 (Modifiers.data (Modifiers.assign m s)).
Proof.
  intros H. split; [|split; [|split]].
  - apply lor_uint32; [assumption|].
    destruct m; unfold is_uint32; simpl; lia.
  - now apply land_uint32.
  - unfold is_uint32; simpl; lia.
  - destruct m; unfold is_uint32; simpl; lia.
Qed.

Lemma ButtonState_uint32 (p : MouseEventButtonState.Position)
  (s : MouseEventButtonState.t) :
  is_uint32 (MouseEventButtonState.data s) ->
  is_uint32 (MouseEventButtonState.data (MouseEventButtonState.add p s))
  /\ is_uint32 (MouseEventButtonState.data (MouseEventButtonState.set p s))
  /\ is_uint32 (MouseEventButtonState.data (MouseEventButtonState.clear s)).
Proof.
  intros H. split; [|split].
  - apply lor_uint32; [assumption|].
    destruct p; unfold is_uint32; simpl; lia.
  - destruct p; unfold is_uint32; simpl; lia.
  - unfold is_uint32; simpl; lia.
Qed.

Lemma EventConsumeState_uint32 (state : bool) (c : EventConsumeState.t) :
  is_uint32 (EventConsumeState.data c) ->
  is_uint32 (EventConsumeState.data (EventConsumeState.assign state c))
  /\ is_uint32 (EventConsumeState.data (EventConsumeState.reset c))
  /\ is_uint32 (EventConsumeState.data (ignoreFollowUp_data state c)).
Proof.
  intros H. split; [|split].
  - destruct state; vm_compute; split; (discriminate || reflexivity).
  - vm_compute; split; (discriminate || reflexivity).
  - destruct state; cbn [ignoreFollowUp_data EventConsumeState.data].
    + apply lor_uint32; [assumption|].
      vm_compute; split; (discriminate || reflexivity).
    + now apply land_uint32.
Qed.

(** ** Query casts *)

(** A query cast looks at the discriminant only. *)
Lemma accepts_spec (event : Object) :
  (asMousePositionEvent event <> None
   <-> accepts asMousePositionEvent (type (Event_of event)) = true)
  /\ (asMouseEvent event <> None
      <-> accepts asMouseEvent (type (Event_of event)) = true)
  /\ (asMouseDownEvent event <> None
      <-> accepts asMouseDownEvent (type (Event_of event)) = true)
  /\ (asModifierEvent event <> None
      <-> accepts asModifierEvent (type (Event_of event)) = true)
  /\ (asKeyboardEvent event <> None
      <-> accepts asKeyboardEvent (type (Event_of event)) = true).
Proof.
  unfold accepts, asMousePositionEvent, asMouseEvent, asMouseDownEvent,
    asModifierEvent, asKeyboardEvent.
  destruct (type (Event_of event)); simpl;
    repeat split; intros; congruence.
Qed.


(** C1: every query cast answers a non-null pointer exactly on the
    discriminants of its documented accepted set, whatever the event it
    is applied to; on every other discriminant, [Unknown] and
    [MouseCancel] among them, the answer is null. *)
Theorem query_cast_accepted_sets (event : Object) :
  (asMousePositionEvent event <> None
   <-> In (type (Event_of event)) documented_asMousePositionEvent)
  /\ (asMouseEvent event <> None
      <-> In (type (Event_of event)) documented_asMouseEvent)
  /\ (asMouseDownEvent event <> None
      <-> In (type (Event_of event)) documented_asMouseDownEvent)
  /\ (asModifierEvent event <> None
      <-> In (type (Event_of event)) documented_asModifierEvent)
  /\ (asKeyboardEvent event <> None
      <-> In (type (Event_of event)) documented_asKeyboardEvent)
  /\ (In (type (Event_of event)) [EventType.Unknown; EventType.MouseCancel]
      -> asMousePositionEvent event = None /\ asMouseEvent event = None
         /\ asMouseDownEvent event = None /\ asModifierEvent event = None
         /\ asKeyboardEvent event = None).
Proof.
  unfold asMousePositionEvent, asMouseEvent, asMouseDownEvent,
    asModifierEvent, asKeyboardEvent.
  destruct (type (Event_of event)); simpl;
    repeat split; intros; try congruence; intuition congruence.
Qed.

(** The accepted sets, by their integer values. *)
Lemma accepts_values (t : EventType.t) :
  (accepts asMouseDownEvent t = true <-> 1 <= EventType.value t <= 3)
  /\ (accepts asKeyboardEvent t = true <-> 9 <= EventType.value t <= 10)
  /\ (accepts asMousePositionEvent t = true
      <-> 1 <= EventType.value t <= 8 /\ EventType.value t <> 4)
  /\ (accepts asMouseEvent t = true
      <-> 1 <= EventType.value t <= 6 /\ EventType.value t <> 4)
  /\ (accepts asModifierEvent t = true -> 1 <= EventType.value t <= 10).
Proof.
  destruct t; cbv [accepts asMouseDownEvent asKeyboardEvent
    asMousePositionEvent asMouseEvent asModifierEvent Event_of Event_set_type
    type EventType.value];
    repeat split; intros; try lia; try discriminate.
Qed.

(** C3, as the code has it: the accepted sets of [asMouseDownEvent]
    (values 1 to 3) and of [asKeyboardEvent] (values 9 to 10) are
    contiguous ranges of the enumeration.  Those of
    [asMousePositionEvent] and of [asMouseEvent] are the ranges from
    [MouseDown] to [ZoomGesture] and to [MouseExit] without
    [MouseCancel], which lies inside both, and that of [asModifierEvent]
    lies between [MouseDown] and [KeyDown]; none of the three is
    contiguous.  The two ranges are those the assert casts
    [castMousePositionEvent] and [castMouseEvent] check, and
    [castKeyboardEvent] checks the set of [asKeyboardEvent].  The
    discriminant every constructor sets is accepted by the query cast of
    the struct it constructs, while a [MouseCancelEvent] is accepted by
    none. *)
Theorem accepted_sets_ranges :
  (forall t, accepts asMouseDownEvent t = true
             <-> EventType.value EventType.MouseDown <= EventType.value t
                 <= EventType.value EventType.MouseUp)
  /\ (forall t, accepts asKeyboardEvent t = true
                <-> EventType.value EventType.KeyUp <= EventType.value t
                    <= EventType.value EventType.KeyDown)
  /\ (forall t, accepts asMousePositionEvent t = true
                <-> EventType.value EventType.MouseDown <= EventType.value t
                    <= EventType.value EventType.ZoomGesture
                    /\ t <> EventType.MouseCancel)
  /\ (forall t, accepts asMouseEvent t = true
                <-> EventType.value EventType.MouseDown <= EventType.value t
                    <= EventType.value EventType.MouseExit
                    /\ t <> EventType.MouseCancel)
  /\ (forall t, accepts asModifierEvent t = true
                -> EventType.value EventType.MouseDown <= EventType.value t
                   <= EventType.value EventType.KeyDown)
  /\ (forall event,
        asMousePositionEvent event <> None
        <-> castMousePositionEvent_assert event = true
            /\ type (Event_of event) <> EventType.MouseCancel)
  /\ (forall event,
        asMouseEvent event <> None
        <-> castMouseEvent_assert event = true
            /\ type (Event_of event) <> EventType.MouseCancel)
  /\ (forall event,
        asKeyboardEvent event <> None
        <-> castKeyboardEvent_assert event = true)
  /\ contiguous (accepts asMouseDownEvent)
  /\ contiguous (accepts asKeyboardEvent)
  /\ ~ contiguous (accepts asMousePositionEvent)
  /\ ~ contiguous (accepts asMouseEvent)
  /\ ~ contiguous (accepts asModifierEvent)
  /\ (forall id0 timestamp0 zoom0,
        asMouseEvent (ObjMouseEvent (MouseEnterEvent_ctor id0 timestamp0))
          <> None
        /\ asMouseEvent (ObjMouseEvent (MouseExitEvent_ctor id0 timestamp0))
             <> None
        /\ asMouseDownEvent
             (ObjMouseDownEvent (MouseDownEvent_ctor id0 timestamp0)) <> None
        /\ asMouseDownEvent
             (ObjMouseDownEvent (MouseMoveEvent_ctor id0 timestamp0)) <> None
        /\ asMouseDownEvent
             (ObjMouseDownEvent (MouseUpEvent_ctor id0 timestamp0)) <> None
        /\ asMousePositionEvent
             (ObjMouseWheelEvent (MouseWheelEvent_ctor id0 timestamp0))
             <> None
        /\ asMousePositionEvent
             (ObjZoomGestureEvent (ZoomGestureEvent_ctor id0 timestamp0 zoom0))
             <> None
        /\ asKeyboardEvent
             (ObjKeyboardEvent (KeyboardEvent_ctor_default id0 timestamp0))
             <> None
        /\ asMousePositionEvent
             (ObjEvent (MouseCancelEvent_ctor id0 timestamp0)) = None
        /\ asModifierEvent
             (ObjEvent (MouseCancelEvent_ctor id0 timestamp0)) = None
        /\ asKeyboardEvent
             (ObjEvent (MouseCancelEvent_ctor id0 timestamp0)) = None).
Proof.
  split; [|split; [|split; [|split; [|split]]]].
  - intros t. destruct t; vm_compute; intuition (discriminate || congruence).
  - intros t. destruct t; vm_compute; intuition (discriminate || congruence).
  - intros t. destruct t; vm_compute; intuition (discriminate || congruence).
  - intros t. destruct t; vm_compute; intuition (discriminate || congruence).
  - intros t. destruct t; vm_compute; intuition (discriminate || congruence).
  - split; [|split; [|split]].
    { intros event.
      unfold asMousePositionEvent, castMousePositionEvent_assert.
      destruct (type (Event_of event)); simpl;
        intuition (discriminate || congruence). }
    { intros event. unfold asMouseEvent, castMouseEvent_assert.
      destruct (type (Event_of event)); simpl;
        intuition (discriminate || congruence). }
    { intros event. unfold asKeyboardEvent, castKeyboardEvent_assert.
      destruct (type (Event_of event)); simpl;
        intuition (discriminate || congruence). }
    split; [|split; [|split; [|split; [|split]]]].
    + intros a b c Ha Hc Hb.
      apply (proj1 (accepts_values a)) in Ha.
      apply (proj1 (accepts_values c)) in Hc.
      apply (proj1 (accepts_values b)). lia.
    + intros a b c Ha Hc Hb.
      apply (proj1 (proj2 (accepts_values a))) in Ha.
      apply (proj1 (proj2 (accepts_values c))) in Hc.
      apply (proj1 (proj2 (accepts_values b))). lia.
    + intros H.
      specialize (H EventType.MouseUp EventType.MouseCancel
                    EventType.MouseEnter eq_refl eq_refl).
      simpl in H. discriminate H. lia.
    + intros H.
      specialize (H EventType.MouseUp EventType.MouseCancel
                    EventType.MouseEnter eq_refl eq_refl).
      simpl in H. discriminate H. lia.
    + intros H.
      specialize (H EventType.MouseUp EventType.MouseCancel
                    EventType.MouseWheel eq_refl eq_refl).
      simpl in H. discriminate H. lia.
    + intros id0 timestamp0 zoom0.
      repeat split; try discriminate.
Qed.

(** ** Discriminants *)

(** Assigning to a member other than [type] leaves the discriminant. *)
Lemma type_set_pos_buttons (pos : CPoint)
  (buttons : MouseEventButtonState.t) (e : MouseDownEvent) :
  type (MouseDownEvent_event (MouseDownEvent_set_pos_buttons pos buttons e))
  = type (MouseDownEvent_event e).
Proof. reflexivity. Qed.

Lemma type_set_ignoreFollowUp (state : bool) (e : MouseDownEvent) :
  type (MouseDownEvent_event (set_ignoreFollowUpMoveAndUpEvents state e))
  = type (MouseDownEvent_event e).
Proof. reflexivity. Qed.

Lemma type_assign_consumed (state : bool) (e : Event) :
  type (Event_assign_consumed state e) = type e.
Proof. reflexivity. Qed.

(** C5, as the code has it: every concrete constructor sets the
    discriminant documented for its struct, [KeyboardEvent] the one it
    is given and [KeyDown] by default, and [noEvent ()] is a
    default-constructed [Event], of discriminant [Unknown].  The
    discriminant is not fixed afterwards: the move assignment of [Event]
    replaces it by the discriminant of the source, on an [Event] and on
    the [Event] base of every object, and the move constructor gives the
    new event the discriminant of the source.  The other operations of
    the header on a constructed event (the member assignments of the
    constructors, assigning or resetting [consumed], setting the
    follow-up flag) leave the discriminant as it was. *)
Theorem constructors_set_discriminant (id0 timestamp0 : Z) (pos : CPoint)
  (buttons : MouseEventButtonState.t) (mods : Modifiers.t) (zoom0 : double) :
  type (MouseEvent_event (MouseEnterEvent_ctor id0 timestamp0))
    = EventType.MouseEnter
  /\ type (MouseEvent_event
             (MouseEnterEvent_ctor_pos id0 timestamp0 pos buttons mods))
       = EventType.MouseEnter
  /\ type (MouseEvent_event (MouseExitEvent_ctor id0 timestamp0))
       = EventType.MouseExit
  /\ type (MouseEvent_event
             (MouseExitEvent_ctor_pos id0 timestamp0 pos buttons mods))
       = EventType.MouseExit
  /\ type (MouseDownEvent_event (MouseDownEvent_ctor id0 timestamp0))
       = EventType.MouseDown
  /\ type (MouseDownEvent_event
             (MouseDownEvent_ctor_pos id0 timestamp0 pos buttons))
       = EventType.MouseDown
  /\ type (MouseDownEvent_event (MouseMoveEvent_ctor id0 timestamp0))
       = EventType.MouseMove
  /\ type (MouseDownEvent_event
             (MouseMoveEvent_ctor_pos id0 timestamp0 pos buttons))
       = EventType.MouseMove
  /\ type (MouseDownEvent_event (MouseUpEvent_ctor id0 timestamp0))
       = EventType.MouseUp
  /\ type (MouseDownEvent_event
             (MouseUpEvent_ctor_pos id0 timestamp0 pos buttons))
       = EventType.MouseUp
  /\ type (MouseCancelEvent_ctor id0 timestamp0) = EventType.MouseCancel
  /\ type (MouseWheelEvent_event (MouseWheelEvent_ctor id0 timestamp0))
       = EventType.MouseWheel
  /\ type (ZoomGestureEvent_event
             (ZoomGestureEvent_ctor id0 timestamp0 zoom0))
       = EventType.ZoomGesture
  /\ (forall t, type (KeyboardEvent_event (KeyboardEvent_ctor id0 timestamp0 t))
                = t)
  /\ type (KeyboardEvent_event (KeyboardEvent_ctor_default id0 timestamp0))
       = EventType.KeyDown
  /\ noEvent id0 timestamp0 = ObjEvent (Event_ctor id0 timestamp0)
  /\ type (Event_of (noEvent id0 timestamp0)) = EventType.Unknown
  /\ (forall state e, type (Event_assign_consumed state e) = type e)
  /\ (forall e, type (Event_set_consumed
                        (EventConsumeState.reset (consumed e)) e) = type e)
  /\ (forall state e,
        type (MouseDownEvent_event (MouseDownEvent_assign_consumed state e))
        = type (MouseDownEvent_event e))
  /\ (forall state e,
        type (MouseDownEvent_event (set_ignoreFollowUpMoveAndUpEvents state e))
        = type (MouseDownEvent_event e))
  /\ (forall pos' buttons' e,
        type (MouseDownEvent_event
                (MouseDownEvent_set_pos_buttons pos' buttons' e))
        = type (MouseDownEvent_event e))
  /\ (forall n e,
        type (MouseDownEvent_event (MouseDownEvent_set_clickCount n e))
        = type (MouseDownEvent_event e))
  /\ (forall other, type (Event_move_ctor other) = type other)
  /\ (forall other,
        type (Event_of (Object_move_to_Event other)) = type (Event_of other))
  /\ (forall other,
        type (Event_of (Object_move_ctor other)) = type (Event_of other))
  /\ (forall self other, type (Event_move_assign self other) = type other)
  /\ (forall event other,
        type (Event_of (Object_move_assign event other)) = type other).
Proof.
  repeat apply conj; try reflexivity.
  - intros other. destruct other; reflexivity.
  - intros event other. destruct event; reflexivity.
Qed.

(** ** The bit sets *)

Lemma fold_left_lor (modifiers : list ModifierKey.t) (d : Z) :
  fold_left (fun d mod_ => Z.lor d (Modifiers.cast mod_)) modifiers d
  = Z.lor d (union modifiers).
Proof.
  revert d. induction modifiers as [|m l IH]; intros d; simpl.
  - now rewrite Z.lor_0_r.
  - rewrite IH. now rewrite Z.lor_assoc.
Qed.

Lemma Modifiers_has_bit (m : ModifierKey.t) (s : Modifiers.t) :
  Modifiers.has m s
  = match ModifierKey.bit m with
    | Some i => Z.testbit (Modifiers.data s) i
    | None => false
    end.
Proof.
  unfold Modifiers.has, Modifiers.cast.
  destruct m; simpl ModifierKey.bit; simpl ModifierKey.value.
  - apply (to_bool_land_pow2 _ 0). lia.
  - apply (to_bool_land_pow2 _ 1). lia.
  - apply (to_bool_land_pow2 _ 2). lia.
  - apply (to_bool_land_pow2 _ 3). lia.
  - now rewrite Z.land_0_r.
Qed.

Lemma ButtonState_has_bit (p : MouseEventButtonState.Position)
  (s : MouseEventButtonState.t) :
  MouseEventButtonState.has p s
  = Z.testbit (MouseEventButtonState.data s) (MouseEventButtonState.bit p).
Proof.
  unfold MouseEventButtonState.has.
  destruct p; simpl MouseEventButtonState.bit;
    simpl MouseEventButtonState.value.
  - apply (to_bool_land_pow2 _ 1). lia.
  - apply (to_bool_land_pow2 _ 2). lia.
  - apply (to_bool_land_pow2 _ 3). lia.
  - apply (to_bool_land_pow2 _ 4). lia.
  - apply (to_bool_land_pow2 _ 5). lia.
Qed.

Lemma Modifiers_has_add (m m' : ModifierKey.t) (s : Modifiers.t) :
  Modifiers.has m' (Modifiers.add m s)
  = Modifiers.has m' s
    || (ModifierKey.eqb m' m && negb (ModifierKey.eqb m' ModifierKey.None)).
Proof.
  rewrite !Modifiers_has_bit. destruct s as [d].
  destruct m', m; cbn [ModifierKey.bit Modifiers.data Modifiers.add
    Modifiers.cast ModifierKey.value]; by_bits d.
Qed.

Lemma Modifiers_has_remove (m m' : ModifierKey.t) (s : Modifiers.t) :
  Modifiers.has m' (Modifiers.remove m s)
  = Modifiers.has m' s && negb (ModifierKey.eqb m' m).
Proof.
  rewrite !Modifiers_has_bit. destruct s as [d].
  destruct m', m; cbn [ModifierKey.bit Modifiers.data Modifiers.remove
    Modifiers.cast ModifierKey.value]; by_bits d.
Qed.

Lemma ButtonState_has_add (p p' : MouseEventButtonState.Position)
  (s : MouseEventButtonState.t) :
  MouseEventButtonState.has p' (MouseEventButtonState.add p s)
  = MouseEventButtonState.has p' s || MouseEventButtonState.Position_eqb p' p.
Proof.
  rewrite !ButtonState_has_bit. destruct s as [d].
  destruct p', p; cbn [MouseEventButtonState.bit MouseEventButtonState.data
    MouseEventButtonState.add MouseEventButtonState.value]; by_bits d.
Qed.

Lemma ButtonState_left_right_not_left (s : MouseEventButtonState.t) :
  MouseEventButtonState.data
    (MouseEventButtonState.add MouseEventButtonState.Right
       (MouseEventButtonState.add MouseEventButtonState.Left s))
  <> MouseEventButtonState.value MouseEventButtonState.Left.
Proof.
  destruct s as [d]. cbn [MouseEventButtonState.data MouseEventButtonState.add].
  intros H. apply (f_equal (fun z => Z.testbit z 3)) in H.
  rewrite !Z.lor_spec in H.
  destruct (Z.testbit d 3); discriminate H.
Qed.

(** C6: on [Modifiers] and [MouseEventButtonState], [has] is true exactly
    when the bit of the flag is set, [is] exactly when the stored set is
    the one flag, [is] on a list exactly when it is the union of the
    listed flags; [add], [remove], [clear] and [set] update the stored
    set as their names say; equality compares the stored bit patterns.
    After [add (Left); add (Right)] a button state has both buttons and
    is neither [isLeft ()] nor [is (Left)], and a default-constructed
    [Modifiers] is empty. *)
Theorem bit_set_contract :
  (forall m s,
     Modifiers.has m s
     = match ModifierKey.bit m with
       | Some i => Z.testbit (Modifiers.data s) i
       | None => false
       end)
  /\ (forall m s,
        Modifiers.is_ m s = true <-> Modifiers.data s = ModifierKey.value m)
  /\ (forall l s, Modifiers.is_list l s = true <-> Modifiers.data s = union l)
  /\ (forall m s,
        Modifiers.data (Modifiers.add m s)
        = Z.lor (Modifiers.data s) (ModifierKey.value m))
  /\ (forall m m' s,
        Modifiers.has m' (Modifiers.add m s)
        = Modifiers.has m' s
          || (ModifierKey.eqb m' m
              && negb (ModifierKey.eqb m' ModifierKey.None)))
  /\ (forall m m' s,
        Modifiers.has m' (Modifiers.remove m s)
        = Modifiers.has m' s && negb (ModifierKey.eqb m' m))
  /\ (forall s, Modifiers.empty (Modifiers.clear s) = true)
  /\ (forall m s, Modifiers.is_ m (Modifiers.assign m s) = true)
  /\ (forall m s, Modifiers.operator_eq m s = true
                  <-> Modifiers.data s = ModifierKey.value m)
  /\ Modifiers.empty Modifiers.init = true
  /\ (forall p s,
        MouseEventButtonState.has p s
        = Z.testbit (MouseEventButtonState.data s)
                    (MouseEventButtonState.bit p))
  /\ (forall p s,
        MouseEventButtonState.is_ p s = true
        <-> MouseEventButtonState.data s = MouseEventButtonState.value p)
  /\ (forall s,
        MouseEventButtonState.isLeft s
        = MouseEventButtonState.is_ MouseEventButtonState.Left s)
  /\ (forall p s,
        MouseEventButtonState.data (MouseEventButtonState.add p s)
        = Z.lor (MouseEventButtonState.data s)
                (MouseEventButtonState.value p))
  /\ (forall p p' s,
        MouseEventButtonState.has p' (MouseEventButtonState.add p s)
        = MouseEventButtonState.has p' s
          || MouseEventButtonState.Position_eqb p' p)
  /\ (forall p s,
        MouseEventButtonState.is_ p (MouseEventButtonState.set p s) = true)
  /\ (forall s,
        MouseEventButtonState.empty (MouseEventButtonState.clear s) = true)
  /\ (forall a b,
        (MouseEventButtonState.operator_eq a b = true <-> a = b)
        /\ MouseEventButtonState.operator_ne a b
           = negb (MouseEventButtonState.operator_eq a b))
  /\ (forall s,
        let s' := MouseEventButtonState.add MouseEventButtonState.Right
                    (MouseEventButtonState.add MouseEventButtonState.Left s) in
        MouseEventButtonState.has MouseEventButtonState.Left s' = true
        /\ MouseEventButtonState.has MouseEventButtonState.Right s' = true
        /\ MouseEventButtonState.isLeft s' = false
        /\ MouseEventButtonState.is_ MouseEventButtonState.Left s' = false).
Proof.
  split; [exact Modifiers_has_bit|].
  split; [intros m s; apply Z.eqb_eq|].
  split.
  { intros l s. unfold Modifiers.is_list.
    rewrite fold_left_lor, Z.lor_0_l. apply Z.eqb_eq. }
  split; [reflexivity|].
  split; [exact Modifiers_has_add|].
  split; [exact Modifiers_has_remove|].
  split; [reflexivity|].
  split; [intros m s; apply Z.eqb_refl|].
  split; [intros m s; apply Z.eqb_eq|].
  split; [reflexivity|].
  split; [exact ButtonState_has_bit|].
  split; [intros p s; apply Z.eqb_eq|].
  split; [reflexivity|].
  split; [reflexivity|].
  split; [exact ButtonState_has_add|].
  split; [intros p s; apply Z.eqb_refl|].
  split; [reflexivity|].
  split.
  { intros [a] [b]. split; [|reflexivity].
    unfold MouseEventButtonState.operator_eq. simpl.
    rewrite Z.eqb_eq. split; congruence. }
  intros s s'.
  pose proof (ButtonState_left_right_not_left s) as Hne. fold s' in Hne.
  split; [|split; [|split]].
  - subst s'. now rewrite !ButtonState_has_add, orb_true_r.
  - subst s'. now rewrite ButtonState_has_add, orb_true_r.
  - apply Z.eqb_neq, Hne.
  - apply Z.eqb_neq, Hne.
Qed.

(** ** The consumption flag *)

Lemma operator_bool_bit (c : EventConsumeState.t) :
  EventConsumeState.operator_bool c
  = Z.testbit (EventConsumeState.data c) 0.
Proof. apply (to_bool_land_pow2 _ 0). lia. Qed.

Lemma operator_bool_ignoreFollowUp (state : bool) (c : EventConsumeState.t) :
  EventConsumeState.operator_bool (ignoreFollowUp_data state c)
  = EventConsumeState.operator_bool c.
Proof.
  rewrite !operator_bool_bit. destruct c as [d].
  destruct state; cbn [ignoreFollowUp_data EventConsumeState.data];
    by_bits d.
Qed.

Lemma ignoreFollowUp_bit (e : MouseDownEvent) :
  ignoreFollowUpMoveAndUpEvents e
  = Z.testbit (EventConsumeState.data (consumed (MouseDownEvent_event e))) 2.
Proof. apply (to_bool_land_pow2 _ 2). lia. Qed.

(** An update of the [Event] members is seen by a read of them. *)
Lemma MouseDownEvent_event_on_event (f : Event -> Event)
  (e : MouseDownEvent) :
  MouseDownEvent_event (MouseDownEvent_on_event f e)
  = f (MouseDownEvent_event e).
Proof. reflexivity. Qed.

Lemma ignoreFollowUp_set_get (state : bool) (e : MouseDownEvent) :
  ignoreFollowUpMoveAndUpEvents (set_ignoreFollowUpMoveAndUpEvents state e)
  = state.
Proof.
  rewrite ignoreFollowUp_bit. unfold set_ignoreFollowUpMoveAndUpEvents.
  rewrite MouseDownEvent_event_on_event.
  cbn [consumed Event_set_consumed].
  destruct (consumed (MouseDownEvent_event e)) as [d].
  destruct state; cbn [ignoreFollowUp_data EventConsumeState.data];
    by_bits d.
Qed.

(** C4: a default-constructed event reads as not consumed; after
    [consumed = true] it reads as consumed; on a mouse down event,
    setting the follow-up flag with [ignoreFollowUpMoveAndUpEvents (true)]
    and clearing it with [false] both leave what [consumed] reads as a
    boolean, that is the [Handled] bit, as it was. *)
Theorem consumed_flag_contract :
  (forall id0 timestamp0,
     Event_is_consumed (Event_ctor id0 timestamp0) = false)
  /\ (forall id0 timestamp0,
        Event_is_consumed
          (MouseDownEvent_event (MouseDownEvent_ctor id0 timestamp0)) = false)
  /\ (forall e, Event_is_consumed (Event_assign_consumed true e) = true)
  /\ (forall e,
        Event_is_consumed
          (MouseDownEvent_event (MouseDownEvent_assign_consumed true e))
        = true)
  /\ (forall state e,
        Event_is_consumed
          (MouseDownEvent_event (set_ignoreFollowUpMoveAndUpEvents state e))
        = Event_is_consumed (MouseDownEvent_event e))
  /\ (forall state e,
        Z.testbit
          (EventConsumeState.data
             (consumed (MouseDownEvent_event
                          (set_ignoreFollowUpMoveAndUpEvents state e)))) 0
        = Z.testbit
            (EventConsumeState.data (consumed (MouseDownEvent_event e))) 0)
  /\ (forall e,
        Event_is_consumed
          (MouseDownEvent_event
             (set_ignoreFollowUpMoveAndUpEvents false
                (set_ignoreFollowUpMoveAndUpEvents true e)))
        = Event_is_consumed (MouseDownEvent_event e))
  /\ (forall state e,
        ignoreFollowUpMoveAndUpEvents
          (set_ignoreFollowUpMoveAndUpEvents state e) = state).
Proof.
  assert (Hkeep : forall state e,
             Event_is_consumed
               (MouseDownEvent_event
                  (set_ignoreFollowUpMoveAndUpEvents state e))
             = Event_is_consumed (MouseDownEvent_event e)).
  { intros state e. unfold set_ignoreFollowUpMoveAndUpEvents.
    rewrite MouseDownEvent_event_on_event.
    apply operator_bool_ignoreFollowUp. }
  split; [reflexivity|].
  split; [reflexivity|].
  split; [reflexivity|].
  split; [reflexivity|].
  split; [exact Hkeep|].
  split.
  { intros state e. rewrite <- !operator_bool_bit. apply Hkeep. }
  split; [intros e; now rewrite !Hkeep|].
  exact ignoreFollowUp_set_get.
Qed.

(** C2, on a mouse down event whose follow-up flag is set: assigning
    [true] to [consumed] stores [Handled] in the whole flag word, so the
    follow-up bit, which was set, reads as cleared afterwards.  The same
    holds of every flag word: after an assignment the bits from position
    [Last] on are all zero.  Reading the flag as a boolean tests the
    [Handled] bit alone. *)
Theorem consumed_assign_overwrites_flag_word (id0 timestamp0 : Z) :
  let e := set_ignoreFollowUpMoveAndUpEvents true
             (MouseDownEvent_ctor id0 timestamp0) in
  EventConsumeState.data (consumed (MouseDownEvent_event e))
    = IgnoreFollowUpEventsBit
  /\ ignoreFollowUpMoveAndUpEvents e = true
  /\ EventConsumeState.data
       (consumed (MouseDownEvent_event
                    (MouseDownEvent_assign_consumed true e)))
     = EventConsumeState.Handled
  /\ ignoreFollowUpMoveAndUpEvents (MouseDownEvent_assign_consumed true e)
     = false
  /\ (forall state c,
        Z.shiftr (EventConsumeState.data (EventConsumeState.assign state c))
                 EventConsumeState.Last = 0)
  /\ (forall c,
        EventConsumeState.operator_bool c
        = Z.testbit (EventConsumeState.data c) 0).
Proof.
  intros e. repeat split.
  - intros [|] c; reflexivity.
  - exact operator_bool_bit.
Qed.

(** ** Legacy bridging *)

Lemma holds_lor_r (m k : Z) : holds (Z.lor m k) k.
Proof.
  unfold holds. apply Z.bits_inj'. intros n _.
  rewrite Z.land_spec, Z.lor_spec.
  destruct (Z.testbit m n), (Z.testbit k n); reflexivity.
Qed.

Lemma holds_lor_l (m k j : Z) : holds m k -> holds (Z.lor m j) k.
Proof.
  unfold holds. intros H.
  rewrite Z.land_lor_distr_l, H.
  apply Z.bits_inj'. intros n _.
  rewrite Z.lor_spec, Z.land_spec.
  destruct (Z.testbit j n), (Z.testbit k n); reflexivity.
Qed.

(** A conditional [state |= j] keeps the flags a state holds. *)
Lemma holds_step (b : bool) (state j k : Z) :
  holds state k -> holds (if b then CButtonState_or state j else state) k.
Proof. intros H. destruct b; [now apply holds_lor_l|assumption]. Qed.

(** A conditional [state |= k] keeps a state apart from a flag that [k]
    is apart from. *)
Lemma apart_step (b : bool) (state k flag : Z) :
  Z.land state flag = 0 -> Z.land k flag = 0 ->
  Z.land (if b then CButtonState_or state k else state) flag = 0.
Proof.
  intros Hs Hk. destruct b; [|assumption].
  unfold CButtonState_or. now rewrite Z.land_lor_distr_l, Hs, Hk.
Qed.

Lemma buttonStateFromEventModifiers_apart (mods : Modifiers.t) :
  double_click_apart ->
  Z.land (buttonStateFromEventModifiers mods) kDoubleClick = 0.
Proof.
  intros [_ H].
  repeat match goal with
         | H : Forall _ (_ :: _) |- _ => inversion_clear H
         end.
  unfold buttonStateFromEventModifiers.
  repeat (apply apart_step; [|assumption]).
  reflexivity.
Qed.

Lemma buttonStateFromButtons_apart (buttons : MouseEventButtonState.t)
  (state : CButtonState) :
  double_click_apart ->
  Z.land state kDoubleClick = 0 ->
  Z.land (buttonStateFromButtons buttons state) kDoubleClick = 0.
Proof.
  intros [_ H] Hs.
  repeat match goal with
         | H : Forall _ (_ :: _) |- _ => inversion_clear H
         end.
  unfold buttonStateFromButtons.
  repeat (apply apart_step; [|assumption]).
  assumption.
Qed.

Lemma buttonStateFromButtons_left (buttons : MouseEventButtonState.t)
  (state : CButtonState) :
  MouseEventButtonState.has MouseEventButtonState.Left buttons = true ->
  holds (buttonStateFromButtons buttons state) kLButton.
Proof.
  intros H. unfold buttonStateFromButtons. rewrite H. cbv zeta.
  repeat apply holds_step. apply holds_lor_r.
Qed.

Lemma asMouseDownEvent_Some (event p : Object) :
  asMouseDownEvent event = Some p ->
  p = event /\ In (type (Event_of event)) documented_asMouseDownEvent.
Proof.
  unfold asMouseDownEvent.
  destruct (type (Event_of event)); simpl; intros H;
    (discriminate H || (injection H as <-; tauto)).
Qed.

Lemma asMouseDownEvent_None (event : Object) :
  asMouseDownEvent event = None ->
  ~ In (type (Event_of event)) documented_asMouseDownEvent.
Proof.
  unfold asMouseDownEvent.
  destruct (type (Event_of event)); simpl; intros H;
    (discriminate H || intuition discriminate).
Qed.

(** C7: a mouse down event with [clickCount = 2] whose button state has
    [Left] maps to a legacy state that holds both [kLButton] and
    [kDoubleClick].  With [kDoubleClick] apart from the other constants,
    the state of any event holds it exactly when the event is of the
    mouse down family (discriminant [MouseDown], [MouseMove] or
    [MouseUp]) and its [clickCount] is greater than 1.  The function
    answers on every mouse event with a sound tag. *)
Theorem buttonStateFromMouseEvent_double_click :
  (forall d : MouseDownEvent,
     In (type (MouseDownEvent_event d)) documented_asMouseDownEvent ->
     clickCount d = 2 ->
     MouseEventButtonState.has MouseEventButtonState.Left
       (buttonState (MouseDownEvent_base d)) = true ->
     exists state,
       buttonStateFromMouseEvent (ObjMouseDownEvent d) = Some state
       /\ holds state kLButton /\ holds state kDoubleClick)
  /\ (double_click_apart ->
      forall event state,
        buttonStateFromMouseEvent event = Some state ->
        (holds state kDoubleClick
         <-> exists d, MouseDownEvent_of event = Some d
                       /\ In (type (Event_of event))
                            documented_asMouseDownEvent
                       /\ 1 < clickCount d))
  /\ (forall event e,
        MouseEvent_of event = Some e -> down_tag_sound event ->
        buttonStateFromMouseEvent event <> None).
Proof.
  split; [|split].
  - intros d Hin Hcc Hleft.
    unfold buttonStateFromMouseEvent. cbn [MouseEvent_of].
    destruct (asMouseDownEvent (ObjMouseDownEvent d)) as [p|] eqn:Hcast.
    + apply asMouseDownEvent_Some in Hcast as [-> _].
      cbn [MouseDownEvent_of]. rewrite Hcc.
      change (1 <? 2) with true. cbv iota.
      eexists. split; [reflexivity|]. unfold CButtonState_or. split.
      * apply holds_lor_l. now apply buttonStateFromButtons_left.
      * apply holds_lor_r.
    + apply asMouseDownEvent_None in Hcast. contradiction.
  - intros Hapart event state H.
    unfold buttonStateFromMouseEvent in H.
    destruct (MouseEvent_of event) as [e|]; [|discriminate].
    match type of H with
    | context [buttonStateFromButtons ?b ?s] =>
        assert (Hs : Z.land (buttonStateFromButtons b s) kDoubleClick = 0)
          by (apply buttonStateFromButtons_apart;
              [assumption|now apply buttonStateFromEventModifiers_apart]);
        set (s0 := buttonStateFromButtons b s) in *
    end.
    destruct Hapart as [Hnz _].
    destruct (asMouseDownEvent event) as [p|] eqn:Hcast.
    + apply asMouseDownEvent_Some in Hcast as [-> Hin].
      destruct (MouseDownEvent_of event) as [d|]; [|discriminate].
      injection H as <-.
      destruct (Z.ltb_spec 1 (clickCount d)) as [Hlt|Hge].
      * split; [|intros _; apply holds_lor_r].
        intros _. exists d. auto.
      * unfold holds. rewrite Hs. split; [congruence|].
        intros (d' & Hd' & _ & Hlt). injection Hd' as <-. lia.
    + injection H as <-. apply asMouseDownEvent_None in Hcast.
      unfold holds. rewrite Hs. split; [congruence|].
      intros (d & _ & Hin & _). contradiction.
  - intros event e He Hsound. unfold buttonStateFromMouseEvent. rewrite He.
    destruct (asMouseDownEvent event) as [p|] eqn:Hcast; [|discriminate].
    apply asMouseDownEvent_Some in Hcast as [-> Hin].
    specialize (Hsound Hin).
    destruct (MouseDownEvent_of event); [discriminate|contradiction].
Qed.

(** C8: [toVstVirtualKey] answers on every virtual key: with the value
    of the key where that is at most the value of [Equals], which holds
    of every enumerator, and with 0 beyond it; the answer fits an
    [unsigned char]. *)
Theorem toVstVirtualKey_total (key : VirtualKey.t) :
  is_uint32 key ->
  (key <= VirtualKey.Equals -> toVstVirtualKey key = key)
  /\ (VirtualKey.Equals < key -> toVstVirtualKey key = 0)
  /\ 0 <= toVstVirtualKey key < 2 ^ 8
  /\ Forall (fun k => toVstVirtualKey k = k) VirtualKey.enumerators.
Proof.
  intros Hkey. unfold is_uint32 in Hkey.
  unfold toVstVirtualKey, to_uint32, to_uchar.
  rewrite (Z.mod_small key) by assumption.
  change (VirtualKey.Equals mod 2 ^ 32) with 57.
  unfold VirtualKey.Equals.
  destruct (Z.leb_spec key 57) as [Hle|Hgt].
  - rewrite Z.mod_small by lia.
    repeat split; try lia. repeat constructor.
  - repeat split; try lia. repeat constructor.
Qed.

(** ** Round trip through a query cast *)

(** C9: a constructed variant of the accepted family of a query cast,
    seen through a reference to its [Event] base and cast back, is the
    same object, and the pointer reads every member as it was stored: so
    for a mouse down event built from a position, a button state,
    modifiers and a click count, and so for every object whose
    discriminant is one its struct is constructed with. *)
Theorem query_cast_roundtrip :
  (forall id0 timestamp0 pos buttons mods n,
     let d := MouseDownEvent_set_modifiers_clickCount mods n
                (MouseDownEvent_ctor_pos id0 timestamp0 pos buttons) in
     asMouseDownEvent (ObjMouseDownEvent d) = Some (ObjMouseDownEvent d)
     /\ MouseDownEvent_of (ObjMouseDownEvent d) = Some d
     /\ type (MouseDownEvent_event d) = EventType.MouseDown
     /\ id (MouseDownEvent_event d) = id0
     /\ timestamp (MouseDownEvent_event d) = timestamp0
     /\ mousePosition (MouseEvent_base (MouseDownEvent_base d)) = pos
     /\ buttonState (MouseDownEvent_base d) = buttons
     /\ modifiers
          (MousePositionEvent_base (MouseEvent_base (MouseDownEvent_base d)))
        = mods
     /\ clickCount d = n)
  /\ (forall d : MouseDownEvent,
        In (type (MouseDownEvent_event d)) documented_asMouseDownEvent ->
        let o := ObjMouseDownEvent d in
        asMouseDownEvent o = Some o /\ MouseDownEvent_of o = Some d
        /\ asMouseEvent o = Some o
        /\ MouseEvent_of o = Some (MouseDownEvent_base d)
        /\ asMousePositionEvent o = Some o
        /\ MousePositionEvent_of o
           = Some (MouseEvent_base (MouseDownEvent_base d))
        /\ asModifierEvent o = Some o
        /\ ModifierEvent_of o
           = Some (MousePositionEvent_base
                     (MouseEvent_base (MouseDownEvent_base d))))
  /\ (forall e : MouseEvent,
        In (type (MouseEvent_event e))
           [EventType.MouseEnter; EventType.MouseExit] ->
        let o := ObjMouseEvent e in
        asMouseEvent o = Some o /\ MouseEvent_of o = Some e
        /\ asMousePositionEvent o = Some o
        /\ MousePositionEvent_of o = Some (MouseEvent_base e))
  /\ (forall w : MouseWheelEvent,
        type (MouseWheelEvent_event w) = EventType.MouseWheel ->
        let o := ObjMouseWheelEvent w in
        asMousePositionEvent o = Some o
        /\ MousePositionEvent_of o = Some (MouseWheelEvent_base w)
        /\ asModifierEvent o = Some o
        /\ ModifierEvent_of o
           = Some (MousePositionEvent_base (MouseWheelEvent_base w)))
  /\ (forall z : ZoomGestureEvent,
        type (ZoomGestureEvent_event z) = EventType.ZoomGesture ->
        let o := ObjZoomGestureEvent z in
        asMousePositionEvent o = Some o
        /\ MousePositionEvent_of o
           = Some (GestureEvent_base (ZoomGestureEvent_base z)))
  /\ (forall k : KeyboardEvent,
        In (type (KeyboardEvent_event k))
           [EventType.KeyDown; EventType.KeyUp] ->
        let o := ObjKeyboardEvent k in
        asKeyboardEvent o = Some o /\ KeyboardEvent_of o = Some k
        /\ asModifierEvent o = Some o
        /\ ModifierEvent_of o = Some (KeyboardEvent_base k)).
Proof.
  split; [intros; repeat split|].
  split.
  { intros d Hin o. subst o.
    unfold asMouseDownEvent, asMouseEvent, asMousePositionEvent,
      asModifierEvent.
    cbn [Event_of MouseDownEvent_of MouseEvent_of MousePositionEvent_of
      ModifierEvent_of option_map].
    destruct (type (MouseDownEvent_event d)); simpl in Hin;
      solve [intuition discriminate | repeat split]. }
  split.
  { intros e Hin o. subst o.
    unfold asMouseEvent, asMousePositionEvent.
    cbn [Event_of MouseEvent_of MousePositionEvent_of].
    destruct (type (MouseEvent_event e)); simpl in Hin;
      solve [intuition discriminate | repeat split]. }
  split.
  { intros w Hw o. subst o.
    unfold asMousePositionEvent, asModifierEvent.
    cbn [Event_of MousePositionEvent_of ModifierEvent_of option_map].
    rewrite Hw. repeat split. }
  split.
  { intros z Hz o. subst o.
    unfold asMousePositionEvent.
    cbn [Event_of MousePositionEvent_of].
    rewrite Hz. repeat split. }
  intros k Hin o. subst o.
  unfold asKeyboardEvent, asModifierEvent.
  cbn [Event_of KeyboardEvent_of ModifierEvent_of].
  destruct (type (KeyboardEvent_event k)); simpl in Hin;
    solve [intuition discriminate | repeat split].
Qed.

Lemma keep_step (b : bool) (state k flag : Z) :
  Z.land k flag = 0 ->
  Z.land (if b then CButtonState_or state k else state) flag
  = Z.land state flag.
Proof.
  intros Hk. destruct b; [|reflexivity].
  unfold CButtonState_or. now rewrite Z.land_lor_distr_l, Hk, Z.lor_0_r.
Qed.

Lemma hit_step (b : bool) (state flag : Z) :
  Z.land (if b then CButtonState_or state flag else state) flag
  = if b then flag else Z.land state flag.
Proof. destruct b; [apply holds_lor_r|reflexivity]. Qed.

(** Computes [Z.land] of a chain of conditional [|=] with one flag. *)
Ltac land_chain :=
  repeat (rewrite keep_step by assumption);
  rewrite ?hit_step;
  repeat (rewrite keep_step by assumption);
  rewrite ?Z.land_0_l;
  try reflexivity.

Lemma holds_if (b : bool) (state k : Z) :
  k <> 0 -> Z.land state k = (if b then k else 0) ->
  (holds state k <-> b = true).
Proof.
  unfold holds. intros Hk ->. destruct b; split; congruence.
Qed.

(** What [buttonStateFromEventModifiers] answers, flag by flag. *)
Lemma buttonStateFromEventModifiers_flags (mods : Modifiers.t) :
  buttonStateFromEventModifiers mods
  = Z.lor (Z.lor (if Modifiers.has ModifierKey.Control mods
                  then kControl else 0)
                 (if Modifiers.has ModifierKey.Shift mods
                  then kShift else 0))
          (if Modifiers.has ModifierKey.Alt mods then kAlt else 0).
Proof.
  unfold buttonStateFromEventModifiers, CButtonState_or, CButtonState_init.
  cbv zeta.
  destruct (Modifiers.has ModifierKey.Control mods),
    (Modifiers.has ModifierKey.Shift mods),
    (Modifiers.has ModifierKey.Alt mods);
    now rewrite ?Z.lor_0_l, ?Z.lor_0_r.
Qed.

Lemma buttonStateFromEventModifiers_decodes (mods : Modifiers.t) :
  modifier_buttons_apart ->
  (holds (buttonStateFromEventModifiers mods) kControl
   <-> Modifiers.has ModifierKey.Control mods = true)
  /\ (holds (buttonStateFromEventModifiers mods) kShift
      <-> Modifiers.has ModifierKey.Shift mods = true)
  /\ (holds (buttonStateFromEventModifiers mods) kAlt
      <-> Modifiers.has ModifierKey.Alt mods = true).
Proof.
  intros H. unfold modifier_buttons_apart in H. open_apart H.
  unfold buttonStateFromEventModifiers, CButtonState_init. cbv zeta.
  split; [|split]; (apply holds_if; [assumption|]); land_chain.
Qed.

(** ** The super key in the two bridges *)

Lemma land_to_uchar (x k : Z) :
  0 <= k < 2 ^ 8 -> Z.land (to_uchar x) k = Z.land x k.
Proof.
  intros Hk. unfold to_uchar. apply Z.bits_inj'. intros n Hn.
  rewrite !Z.land_spec.
  destruct (Z.ltb_spec n 8) as [Hlt|Hge].
  - now rewrite Z.mod_pow2_bits_low by lia.
  - replace (Z.testbit k n) with false; [now rewrite !andb_false_r|].
    symmetry. rewrite <- (Z.mod_small k (2 ^ 8)) by assumption.
    apply Z.mod_pow2_bits_high. lia.
Qed.

(** A conditional [modifier |= c] keeps the modifier byte apart from a
    flag of the byte that [c] is apart from. *)
Lemma modifier_apart_step (b : bool) (modifier c flag : Z) :
  0 <= flag < 2 ^ 8 ->
  Z.land modifier flag = 0 -> Z.land c flag = 0 ->
  Z.land (if b then modifier_or modifier c else modifier) flag = 0.
Proof.
  intros Hf Hm Hc. destruct b; [|assumption].
  unfold modifier_or.
  now rewrite land_to_uchar, Z.land_lor_distr_l, Hm, Hc by assumption.
Qed.

Lemma toVstKeyCode_command (event : KeyboardEvent) :
  command_apart ->
  Modifiers.has ModifierKey.Super (modifiers (KeyboardEvent_base event))
    = true
  <-> holds (VstKeyCode_modifier (toVstKeyCode event)) MODIFIER_COMMAND.
Proof.
  intros [Hrange H].
  repeat match goal with
         | H : Forall _ (_ :: _) |- _ => inversion_clear H
         end.
  assert (Hb : 0 <= MODIFIER_COMMAND < 2 ^ 8) by lia.
  unfold toVstKeyCode. cbn [VstKeyCode_modifier]. cbv zeta.
  match goal with
  | |- _ <-> holds (if _ then modifier_or ?m _ else _) _ =>
      assert (Hm : Z.land m MODIFIER_COMMAND = 0)
        by (repeat (apply modifier_apart_step; [assumption| |assumption]);
            reflexivity);
      set (m3 := m) in *
  end.
  unfold holds.
  destruct (Modifiers.has ModifierKey.Super
              (modifiers (KeyboardEvent_base event))).
  - unfold modifier_or. rewrite land_to_uchar by assumption.
    split; [intros _; apply holds_lor_r|reflexivity].
  - rewrite Hm. split; [discriminate|lia].
Qed.

(** C10: [buttonStateFromEventModifiers] maps [Control], [Shift] and
    [Alt], to [kControl], [kShift] and [kAlt], and nothing else: its
    answer is those of the three constants whose modifier is set, or-ed
    together, so it holds the constant of each modifier that is set (and
    with the three constants apart, of no other), it is empty when none
    of the three is set, and it is the same with [Super] removed from,
    or added to, the modifiers.  [toVstKeyCode] maps [Super] to
    [MODIFIER_COMMAND]: with that constant apart from the other three,
    the modifier byte holds it exactly when the event has [Super], so
    two keyboard events that differ in [Super] alone have different key
    codes and equal button states. *)
Theorem legacy_bridges_differ_on_super :
  (forall mods,
     buttonStateFromEventModifiers (Modifiers.remove ModifierKey.Super mods)
     = buttonStateFromEventModifiers mods)
  /\ (forall mods,
        buttonStateFromEventModifiers (Modifiers.add ModifierKey.Super mods)
        = buttonStateFromEventModifiers mods)
  /\ (command_apart ->
      forall event,
        Modifiers.has ModifierKey.Super (modifiers (KeyboardEvent_base event))
          = true
        <-> holds (VstKeyCode_modifier (toVstKeyCode event)) MODIFIER_COMMAND)
  /\ (command_apart ->
      forall event,
        let mods := modifiers (KeyboardEvent_base event) in
        Modifiers.has ModifierKey.Super mods = true ->
        toVstKeyCode
          (KeyboardEvent_set_modifiers
             (Modifiers.remove ModifierKey.Super mods) event)
        <> toVstKeyCode event)
  /\ (forall mods,
        buttonStateFromEventModifiers mods
        = Z.lor (Z.lor (if Modifiers.has ModifierKey.Control mods
                        then kControl else 0)
                       (if Modifiers.has ModifierKey.Shift mods
                        then kShift else 0))
                (if Modifiers.has ModifierKey.Alt mods then kAlt else 0))
  /\ (forall mods,
        (Modifiers.has ModifierKey.Control mods = true ->
         holds (buttonStateFromEventModifiers mods) kControl)
        /\ (Modifiers.has ModifierKey.Shift mods = true ->
            holds (buttonStateFromEventModifiers mods) kShift)
        /\ (Modifiers.has ModifierKey.Alt mods = true ->
            holds (buttonStateFromEventModifiers mods) kAlt))
  /\ (forall mods,
        Modifiers.has ModifierKey.Control mods = false ->
        Modifiers.has ModifierKey.Shift mods = false ->
        Modifiers.has ModifierKey.Alt mods = false ->
        buttonStateFromEventModifiers mods = CButtonState_init)
  /\ (modifier_buttons_apart ->
      forall mods,
        (holds (buttonStateFromEventModifiers mods) kControl
         <-> Modifiers.has ModifierKey.Control mods = true)
        /\ (holds (buttonStateFromEventModifiers mods) kShift
            <-> Modifiers.has ModifierKey.Shift mods = true)
        /\ (holds (buttonStateFromEventModifiers mods) kAlt
            <-> Modifiers.has ModifierKey.Alt mods = true)).
Proof.
  split; [|split; [|split; [|split; [|split; [|split; [|split]]]]]].
  - intros mods. unfold buttonStateFromEventModifiers.
    rewrite !Modifiers_has_remove. cbn [ModifierKey.eqb ModifierKey.value].
    now rewrite !andb_true_r.
  - intros mods. unfold buttonStateFromEventModifiers.
    rewrite !Modifiers_has_add. cbn [ModifierKey.eqb ModifierKey.value].
    now rewrite !orb_false_r.
  - intros Hapart event. now apply toVstKeyCode_command.
  - intros Hapart event mods Hsuper Heq.
    apply (toVstKeyCode_command event Hapart) in Hsuper.
    rewrite <- Heq in Hsuper.
    apply (toVstKeyCode_command _ Hapart) in Hsuper.
    cbn [KeyboardEvent_set_modifiers KeyboardEvent_map KeyboardEvent_base
      ModifierEvent_set_modifiers modifiers] in Hsuper.
    rewrite Modifiers_has_remove in Hsuper.
    cbn [ModifierKey.eqb ModifierKey.value] in Hsuper.
    rewrite andb_comm in Hsuper. discriminate Hsuper.
  - exact buttonStateFromEventModifiers_flags.
  - intros mods. unfold buttonStateFromEventModifiers, CButtonState_or.
    cbv zeta. split; [|split]; intros ->.
    + do 2 apply holds_step. apply holds_lor_r.
    + apply holds_step. apply holds_lor_r.
    + apply holds_lor_r.
  - intros mods Hc Hs Ha. unfold buttonStateFromEventModifiers.
    now rewrite Hc, Hs, Ha.
  - intros Hapart mods. now apply buttonStateFromEventModifiers_decodes.
Qed.

(** * Further properties of the header *)

(** ** The query casts among themselves *)

(** X1: the accepted sets of the query casts are nested as the structs
    are derived for the mouse events: an event [asMouseDownEvent]
    accepts is accepted by [asMouseEvent], one [asMouseEvent] accepts by
    [asMousePositionEvent]; [asMouseDownEvent] and [asKeyboardEvent]
    imply [asModifierEvent]; and no event is accepted both as a
    keyboard event and as a mouse position event. *)
Theorem query_casts_nested (event : Object) :
  (asMouseDownEvent event <> None -> asMouseEvent event <> None)
  /\ (asMouseEvent event <> None -> asMousePositionEvent event <> None)
  /\ (asMouseDownEvent event <> None -> asModifierEvent event <> None)
  /\ (asKeyboardEvent event <> None -> asModifierEvent event <> None)
  /\ (asKeyboardEvent event <> None -> asMousePositionEvent event = None)
  /\ (asMousePositionEvent event <> None -> asKeyboardEvent event = None).
Proof.
  unfold asMouseDownEvent, asMouseEvent, asMousePositionEvent,
    asModifierEvent, asKeyboardEvent.
  destruct (type (Event_of event)); repeat split; congruence.
Qed.

(** Every struct with a mouse position has the modifiers. *)
Lemma MousePositionEvent_has_ModifierEvent (o : Object)
  (p : MousePositionEvent) :
  MousePositionEvent_of o = Some p ->
  ModifierEvent_of o = Some (MousePositionEvent_base p).
Proof.
  destruct o; cbn [MousePositionEvent_of ModifierEvent_of option_map];
    intros H; try discriminate H; now injection H as <-.
Qed.

(** X2: [asModifierEvent] is not nested with the others: on every event
    of discriminant [MouseEnter], [MouseExit] or [ZoomGesture] it
    answers null although [asMousePositionEvent] answers the event, and
    although the [MousePositionEvent] read there has modifiers like
    every other. *)
Theorem asModifierEvent_rejects_enter_exit_zoom (event : Object) :
  In (type (Event_of event))
     [EventType.MouseEnter; EventType.MouseExit; EventType.ZoomGesture] ->
  asMousePositionEvent event = Some event
  /\ asModifierEvent event = None
  /\ (forall p, MousePositionEvent_of event = Some p ->
                ModifierEvent_of event = Some (MousePositionEvent_base p)).
Proof.
  intros Hin. split; [|split].
  - unfold asMousePositionEvent.
    destruct (type (Event_of event)); simpl in Hin;
      solve [reflexivity | intuition discriminate].
  - unfold asModifierEvent.
    destruct (type (Event_of event)); simpl in Hin;
      solve [reflexivity | intuition discriminate].
  - intros p. apply MousePositionEvent_has_ModifierEvent.
Qed.

(** ** The casts on objects as the constructors leave them *)





(** X4: the constructor of [KeyboardEvent] stores whatever discriminant
    it is given.  Given one of a mouse position event, it builds an
    object on which [asMousePositionEvent] answers a non-null pointer
    and [asKeyboardEvent] null, although the object is a keyboard event
    and has no [MousePositionEvent] base to read. *)
Theorem KeyboardEvent_with_mouse_discriminant (id0 timestamp0 : Z)
  (t : EventType.t) :
  In t documented_asMousePositionEvent ->
  let o := ObjKeyboardEvent (KeyboardEvent_ctor id0 timestamp0 t) in
  asMousePositionEvent o = Some o
  /\ MousePositionEvent_of o = None
  /\ asKeyboardEvent o = None
  /\ KeyboardEvent_of o = Some (KeyboardEvent_ctor id0 timestamp0 t)
  /\ tag_sound o = false.
Proof.
  intros Hin o. subst o.
  destruct t; simpl in Hin;
    solve [repeat split | exfalso; intuition discriminate].
Qed.


(** X5: on an object as the constructors leave it, the assertion of an
    assert cast to one struct, and that of [castKeyboardEvent],
    guarantee that the struct cast to is there.  The range assertions of
    [castMousePositionEvent] and [castMouseEvent] guarantee it for every
    discriminant but [MouseCancel]: a [MouseCancelEvent] passes both,
    and has neither a [MousePositionEvent] nor a [MouseEvent] base. *)
Theorem assert_casts_on_constructed :
  (forall o,
     tag_sound o = true ->
     (castMouseDownEvent_assert o = true -> MouseDownEvent_of o <> None)
     /\ (castMouseMoveEvent_assert o = true -> MouseDownEvent_of o <> None)
     /\ (castMouseUpEvent_assert o = true -> MouseDownEvent_of o <> None)
     /\ (castMouseEnterEvent_assert o = true -> MouseEvent_of o <> None)
     /\ (castMouseExitEvent_assert o = true -> MouseEvent_of o <> None)
     /\ (castMouseWheelEvent_assert o = true -> MouseWheelEvent_of o <> None)
     /\ (castZoomGestureEvent_assert o = true ->
         ZoomGestureEvent_of o <> None)
     /\ (castKeyboardEvent_assert o = true -> KeyboardEvent_of o <> None)
     /\ (castMousePositionEvent_assert o = true ->
         type (Event_of o) <> EventType.MouseCancel ->
         MousePositionEvent_of o <> None)
     /\ (castMouseEvent_assert o = true ->
         type (Event_of o) <> EventType.MouseCancel ->
         MouseEvent_of o <> None))
  /\ (forall id0 timestamp0,
        let o := ObjEvent (MouseCancelEvent_ctor id0 timestamp0) in
        tag_sound o = true
        /\ castMouseCancelEvent_assert o = true
        /\ castMousePositionEvent_assert o = true
        /\ castMouseEvent_assert o = true
        /\ MousePositionEvent_of o = None
        /\ MouseEvent_of o = None).
Proof.
  split; [|intros; repeat split].
  intros o.
  unfold tag_sound, castMouseDownEvent_assert, castMouseMoveEvent_assert,
    castMouseUpEvent_assert, castMouseEnterEvent_assert,
    castMouseExitEvent_assert, castMouseWheelEvent_assert,
    castZoomGestureEvent_assert, castKeyboardEvent_assert,
    castMousePositionEvent_assert, castMouseEvent_assert.
  destruct o; cbn [MousePositionEvent_of MouseEvent_of MouseDownEvent_of
    MouseWheelEvent_of ZoomGestureEvent_of KeyboardEvent_of];
    destruct (type (Event_of _)); intros Hs;
    try discriminate Hs; repeat split; intros;
    try discriminate; try congruence;
    match goal with
    | H : _ = true |- _ => vm_compute in H; discriminate H
    end.
Qed.

(** ** Consumption and the follow-up flag, in either order *)

Lemma Event_is_consumed_assign (state : bool) (e : Event) :
  Event_is_consumed (Event_assign_consumed state e) = state.
Proof. destruct state; reflexivity. Qed.

(** X6: on every mouse down event, [consumed = b] followed by
    [ignoreFollowUpMoveAndUpEvents (s)] leaves the event reading [b] as
    consumed and [s] as the follow-up flag, while the same two calls in
    the other order leave [b] and a cleared follow-up flag, whatever [s]
    was; [consumed.reset ()] has the effect of [consumed = false], and
    either clears the follow-up flag as well. *)
Theorem consumed_and_follow_up_order (b s : bool) (e : MouseDownEvent) :
  let e1 := set_ignoreFollowUpMoveAndUpEvents s
              (MouseDownEvent_assign_consumed b e) in
  let e2 := MouseDownEvent_assign_consumed b
              (set_ignoreFollowUpMoveAndUpEvents s e) in
  Event_is_consumed (MouseDownEvent_event e1) = b
  /\ ignoreFollowUpMoveAndUpEvents e1 = s
  /\ Event_is_consumed (MouseDownEvent_event e2) = b
  /\ ignoreFollowUpMoveAndUpEvents e2 = false
  /\ MouseDownEvent_on_event
       (fun ev => Event_set_consumed
                    (EventConsumeState.reset (consumed ev)) ev) e
     = MouseDownEvent_assign_consumed false e
  /\ ignoreFollowUpMoveAndUpEvents (MouseDownEvent_assign_consumed false e)
     = false.
Proof.
  intros e1 e2. subst e1 e2. split; [|split; [|split; [|split; [|split]]]].
  - unfold set_ignoreFollowUpMoveAndUpEvents.
    rewrite MouseDownEvent_event_on_event.
    unfold Event_is_consumed. cbn [consumed Event_set_consumed].
    rewrite operator_bool_ignoreFollowUp.
    unfold MouseDownEvent_assign_consumed.
    rewrite MouseDownEvent_event_on_event.
    apply Event_is_consumed_assign.
  - apply ignoreFollowUp_set_get.
  - unfold MouseDownEvent_assign_consumed.
    rewrite MouseDownEvent_event_on_event.
    apply Event_is_consumed_assign.
  - destruct b; reflexivity.
  - reflexivity.
  - reflexivity.
Qed.

(** ** The converting constructors of the enter and exit events *)



(** ** Words of a few bits *)

Lemma fits_mod (n x : Z) : 0 <= n -> 0 <= x < 2 ^ n <-> x mod 2 ^ n = x.
Proof.
  intros Hn. split.
  - intros H. now apply Z.mod_small.
  - intros <-. apply Z.mod_pos_bound. now apply Z.pow_pos_nonneg.
Qed.

Lemma lor_fits (n x y : Z) :
  0 <= n -> 0 <= x < 2 ^ n -> 0 <= y < 2 ^ n -> 0 <= Z.lor x y < 2 ^ n.
Proof.
  intros Hn. rewrite !(fits_mod n) by assumption. intros Hx Hy.
  rewrite <- !Z.land_ones in * by assumption.
  now rewrite Z.land_lor_distr_l, Hx, Hy.
Qed.

Lemma land_fits (n x y : Z) :
  0 <= n -> 0 <= x < 2 ^ n -> 0 <= Z.land x y < 2 ^ n.
Proof.
  intros Hn. rewrite !(fits_mod n) by assumption. intros Hx.
  rewrite <- !Z.land_ones in * by assumption.
  now rewrite <- Z.land_assoc, (Z.land_comm y), Z.land_assoc, Hx.
Qed.

Lemma testbit_high (n x i : Z) :
  0 <= n -> 0 <= x < 2 ^ n -> n <= i -> Z.testbit x i = false.
Proof.
  intros Hn Hx Hi. rewrite <- (Z.mod_small x (2 ^ n)) by assumption.
  apply Z.mod_pow2_bits_high. lia.
Qed.

(** ** Sequences of calls on [Modifiers] *)

Lemma Modifiers_has_clear (k : ModifierKey.t) (s : Modifiers.t) :
  Modifiers.has k (Modifiers.clear s) = false.
Proof. reflexivity. Qed.

Lemma Modifiers_has_assign (k m : ModifierKey.t) (s : Modifiers.t) :
  Modifiers.has k (Modifiers.assign m s)
  = ModifierKey.eqb k m && negb (ModifierKey.eqb k ModifierKey.None).
Proof. destruct k, m; reflexivity. Qed.

Lemma ModifierKey_eqb_None (k : ModifierKey.t) :
  k <> ModifierKey.None -> ModifierKey.eqb k ModifierKey.None = false.
Proof. destruct k; [reflexivity..|congruence]. Qed.

Lemma ModifierKey_eqb_eq (k m : ModifierKey.t) :
  ModifierKey.eqb k m = true <-> k = m.
Proof. destruct k, m; split; (reflexivity || discriminate). Qed.

(** What one call does to one key. *)
Lemma Modifiers_has_step (k : ModifierKey.t) (op : ModifiersOp)
  (s : Modifiers.t) :
  k <> ModifierKey.None ->
  Modifiers.has k (Modifiers_step s op)
  = sets_key k op || (keeps_key k op && Modifiers.has k s).
Proof.
  intros Hk. apply ModifierKey_eqb_None in Hk.
  destruct op as [m|m| |m]; cbn [Modifiers_step sets_key keeps_key].
  - rewrite Modifiers_has_add, Hk.
    destruct (ModifierKey.eqb k m), (Modifiers.has k s); reflexivity.
  - rewrite Modifiers_has_remove.
    destruct (ModifierKey.eqb k m), (Modifiers.has k s); reflexivity.
  - reflexivity.
  - rewrite Modifiers_has_assign, Hk.
    destruct (ModifierKey.eqb k m), (Modifiers.has k s); reflexivity.
Qed.

Lemma Modifiers_run_snoc (ops : list ModifiersOp) (op : ModifiersOp)
  (s : Modifiers.t) :
  Modifiers_run (ops ++ [op]) s = Modifiers_step (Modifiers_run ops s) op.
Proof. unfold Modifiers_run. now rewrite fold_left_app. Qed.

(** A list that ends in [op] and is split around [op'] either ends in
    that [op'] or has [op] at the end of the part behind it. *)
Lemma snoc_split {A : Type} (l pre post : list A) (a a' : A) :
  l ++ [a] = pre ++ a' :: post ->
  (post = [] /\ l = pre /\ a = a')
  \/ (exists post', post = post' ++ [a] /\ l = pre ++ a' :: post').
Proof.
  intros H. destruct post as [|b post] using rev_ind.
  - left. apply app_inj_tail in H as [-> ->]. auto.
  - right. clear IHpost. exists post.
    rewrite app_comm_cons, app_assoc in H.
    apply app_inj_tail in H as [-> ->]. auto.
Qed.

Lemma Modifiers_has_run (k : ModifierKey.t) (ops : list ModifiersOp)
  (s : Modifiers.t) :
  k <> ModifierKey.None ->
  Modifiers.has k (Modifiers_run ops s) = true
  <-> (Modifiers.has k s = true /\ forallb (keeps_key k) ops = true)
      \/ (exists pre op post,
            ops = pre ++ op :: post /\ sets_key k op = true
            /\ forallb (keeps_key k) post = true).
Proof.
  intros Hk. induction ops as [|op ops IH] using rev_ind.
  - cbn. split; [auto|].
    intros [[H _]|(pre & op & post & H & _)]; [assumption|].
    now destruct pre.
  - rewrite Modifiers_run_snoc, Modifiers_has_step by assumption.
    rewrite forallb_app. cbn [forallb]. rewrite andb_true_r. split.
    + destruct (sets_key k op) eqn:Hsets.
      * intros _. right. exists ops, op, []. auto.
      * cbn [orb]. intros H. apply andb_true_iff in H as [Hkeep H].
        apply IH in H as [[H Hall]|(pre & op' & post & -> & Hs & Hall)].
        -- left. now rewrite H, Hall, Hkeep.
        -- right. exists pre, op', (post ++ [op]).
           rewrite forallb_app. cbn [forallb].
           rewrite Hall, Hkeep, <- app_assoc. auto.
    + intros [[H Hall]|(pre & op' & post & Heq & Hs & Hall)].
      * apply andb_true_iff in Hall as [Hall Hkeep].
        rewrite Hkeep, (proj2 IH) by auto. apply orb_true_r.
      * apply snoc_split in Heq as [(-> & -> & ->)|(post' & -> & ->)].
        -- now rewrite Hs.
        -- rewrite forallb_app in Hall. cbn [forallb] in Hall.
           rewrite andb_true_r in Hall.
           apply andb_true_iff in Hall as [Hall Hkeep].
           rewrite Hkeep, (proj2 IH); [apply orb_true_r|].
           right. exists pre, op', post'. auto.
Qed.

(** X8: after any sequence of [add], [remove], [clear] and [operator=]
    on a default-constructed [Modifiers], [has (k)] is true exactly when
    some call of the sequence put [k] in ([add (k)] or [= k]) and no
    later call took it out ([remove (k)], [clear ()], or [=] of another
    key); from any other start, also when [k] was in at the start and
    no call took it out. *)
Theorem Modifiers_has_iff_added_and_kept (k : ModifierKey.t)
  (ops : list ModifiersOp) :
  k <> ModifierKey.None ->
  (Modifiers.has k (Modifiers_run ops Modifiers.init) = true
   <-> exists pre op post,
         ops = pre ++ op :: post /\ sets_key k op = true
         /\ forallb (keeps_key k) post = true)
  /\ (forall s,
        Modifiers.has k (Modifiers_run ops s) = true
        <-> (Modifiers.has k s = true /\ forallb (keeps_key k) ops = true)
            \/ (exists pre op post,
                  ops = pre ++ op :: post /\ sets_key k op = true
                  /\ forallb (keeps_key k) post = true)).
Proof.
  intros Hk. split; [|intros s; now apply Modifiers_has_run].
  rewrite (Modifiers_has_run k ops Modifiers.init Hk).
  split; [|auto].
  intros [[H _]|H]; [discriminate H|assumption].
Qed.


(** ** Sets of modifier keys and their words *)

Lemma ModifierKey_value_fits (m : ModifierKey.t) :
  0 <= ModifierKey.value m < 2 ^ 4.
Proof. destruct m; cbn; lia. Qed.

Lemma Modifiers_valid_step (s : Modifiers.t) (op : ModifiersOp) :
  Modifiers_valid s -> Modifiers_valid (Modifiers_step s op).
Proof.
  unfold Modifiers_valid. intros H.
  destruct op as [m|m| |m]; cbn [Modifiers_step Modifiers.add
    Modifiers.remove Modifiers.clear Modifiers.assign Modifiers.data
    Modifiers.cast].
  - apply lor_fits; [lia|assumption|apply ModifierKey_value_fits].
  - apply land_fits; [lia|assumption].
  - lia.
  - apply ModifierKey_value_fits.
Qed.

Lemma Modifiers_valid_run (ops : list ModifiersOp) (s : Modifiers.t) :
  Modifiers_valid s -> Modifiers_valid (Modifiers_run ops s).
Proof.
  revert s. induction ops as [|op ops IH]; intros s H; [assumption|].
  apply IH. now apply Modifiers_valid_step.
Qed.

(** Two valid sets with the same keys have the same word. *)
Lemma Modifiers_ext (s s' : Modifiers.t) :
  Modifiers_valid s -> Modifiers_valid s' ->
  (forall k, Modifiers.has k s = Modifiers.has k s') -> s = s'.
Proof.
  unfold Modifiers_valid. intros Hs Hs' H.
  pose proof (H ModifierKey.Shift) as H0.
  pose proof (H ModifierKey.Alt) as H1.
  pose proof (H ModifierKey.Control) as H2.
  pose proof (H ModifierKey.Super) as H3.
  rewrite !Modifiers_has_bit in H0, H1, H2, H3.
  cbn [ModifierKey.bit] in H0, H1, H2, H3.
  destruct s as [d], s' as [d']. cbn [Modifiers.data] in *.
  f_equal. apply Z.bits_inj'. intros n Hn.
  destruct (Z.ltb_spec n 4) as [Hlt|Hge].
  - assert (Hcases : n = 0 \/ n = 1 \/ n = 2 \/ n = 3) by lia.
    destruct Hcases as [->|[->|[->| ->]]]; assumption.
  - now rewrite (testbit_high 4 d), (testbit_high 4 d') by lia.
Qed.

Lemma Modifiers_valid_init : Modifiers_valid Modifiers.init.
Proof. unfold Modifiers_valid. cbn. lia. Qed.

(** X9: the calls of [Modifiers] keep the word within the four bits of
    the modifier keys, from the default-constructed set on.  Among such
    words, two sets are equal exactly when [has] agrees on every key,
    [empty ()] is true exactly when [has] is false of every key, and
    [is (m)] exactly when [has] is true of [m] and of no other key. *)
Theorem Modifiers_valid_words :
  (forall ops, Modifiers_valid (Modifiers_run ops Modifiers.init))
  /\ (forall s op, Modifiers_valid s -> Modifiers_valid (Modifiers_step s op))
  /\ (forall s s',
        Modifiers_valid s -> Modifiers_valid s' ->
        ((forall k, Modifiers.has k s = Modifiers.has k s') <-> s = s'))
  /\ (forall s,
        Modifiers_valid s ->
        (Modifiers.empty s = true <-> forall k, Modifiers.has k s = false))
  /\ (forall s m,
        Modifiers_valid s ->
        (Modifiers.is_ m s = true
         <-> forall k,
               Modifiers.has k s
               = ModifierKey.eqb k m
                 && negb (ModifierKey.eqb k ModifierKey.None))).
Proof.
  split; [|split; [|split; [|split]]].
  - intros ops. apply Modifiers_valid_run, Modifiers_valid_init.
  - exact Modifiers_valid_step.
  - intros s s' Hs Hs'. split; [now apply Modifiers_ext|now intros ->].
  - intros s Hs. split.
    + intros H k. apply Z.eqb_eq in H. destruct s as [d].
      cbn [Modifiers.data] in H. subst d. reflexivity.
    + intros H.
      rewrite (Modifiers_ext s Modifiers.init Hs Modifiers_valid_init);
        [reflexivity|].
      intros k. now rewrite H.
  - intros s m Hs.
    assert (Hm : Modifiers_valid (Modifiers.assign m s))
      by apply (Modifiers_valid_step s (ModAssign m) Hs).
    split.
    + intros H k. apply Z.eqb_eq in H.
      rewrite <- (Modifiers_has_assign k m s).
      destruct s as [d]. cbn [Modifiers.data] in H. now subst d.
    + intros H.
      rewrite (Modifiers_ext s (Modifiers.assign m s) Hs Hm).
      * apply Z.eqb_refl.
      * intros k. now rewrite H, Modifiers_has_assign.
Qed.

(** ** How the calls of [Modifiers] compose *)

Lemma land_not32_self (m : ModifierKey.t) :
  Z.land (Modifiers.cast m) (not32 (Modifiers.cast m)) = 0.
Proof. destruct m; reflexivity. Qed.

(** X10: [add] is idempotent and two [add] commute, and so for
    [remove]; [remove (m)] after [add (m)] is [remove (m)] alone; and on
    a 32 bit word [add (m)] after [remove (m)] is [add (m)] alone.
    [ModifierKey::None] is neutral: [has (None)] is false of every set,
    the empty one too, [is (None)] is [empty ()], [add (None)] changes
    nothing, and neither does [remove (None)] on a 32 bit word. *)
Theorem Modifiers_calls_compose (m m' : ModifierKey.t) (s : Modifiers.t) :
  is_uint32 (Modifiers.data s) ->
  Modifiers.add m (Modifiers.add m s) = Modifiers.add m s
  /\ Modifiers.add m (Modifiers.add m' s)
     = Modifiers.add m' (Modifiers.add m s)
  /\ Modifiers.remove m (Modifiers.remove m s) = Modifiers.remove m s
  /\ Modifiers.remove m (Modifiers.remove m' s)
     = Modifiers.remove m' (Modifiers.remove m s)
  /\ Modifiers.remove m (Modifiers.add m s) = Modifiers.remove m s
  /\ Modifiers.add m (Modifiers.remove m s) = Modifiers.add m s
  /\ Modifiers.has ModifierKey.None s = false
  /\ Modifiers.is_ ModifierKey.None s = Modifiers.empty s
  /\ Modifiers.add ModifierKey.None s = s
  /\ Modifiers.remove ModifierKey.None s = s.
Proof.
  intros Hs. destruct s as [d]. cbn [Modifiers.data] in Hs.
  unfold Modifiers.add, Modifiers.remove. cbn [Modifiers.data].
  assert (Hadd_remove :
            forall c, Z.lor (Z.land d (not32 c)) c = Z.lor d c).
  { intros c. apply Z.bits_inj'. intros n Hn.
    rewrite !Z.lor_spec, Z.land_spec.
    destruct (Z.ltb_spec n 32) as [Hlt|Hge].
    - rewrite testbit_not32 by lia.
      destruct (Z.testbit d n), (Z.testbit c n); reflexivity.
    - unfold is_uint32 in Hs. now rewrite (testbit_high 32 d) by lia. }
  repeat apply conj.
  - now rewrite <- Z.lor_assoc, Z.lor_diag.
  - now rewrite <- !Z.lor_assoc, (Z.lor_comm (Modifiers.cast m')).
  - now rewrite <- Z.land_assoc, Z.land_diag.
  - now rewrite <- !Z.land_assoc, (Z.land_comm (not32 (Modifiers.cast m'))).
  - now rewrite Z.land_lor_distr_l, land_not32_self, Z.lor_0_r.
  - now rewrite Hadd_remove.
  - apply (Modifiers_has_bit ModifierKey.None).
  - reflexivity.
  - now rewrite Z.lor_0_r.
  - f_equal. cbn [Modifiers.cast ModifierKey.value].
    change (not32 0) with (Z.ones 32).
    rewrite Z.land_ones by lia. now apply Z.mod_small.
Qed.


(** ** [is] on a list of modifier keys *)

Lemma union_testbit (l : list ModifierKey.t) (i : Z) :
  Z.testbit (union l) i
  = existsb (fun m => Z.testbit (Modifiers.cast m) i) l.
Proof.
  induction l as [|m l IH]; cbn [union fold_right existsb].
  - apply Z.bits_0.
  - fold (union l). now rewrite Z.lor_spec, IH.
Qed.

Lemma union_ext (l l' : list ModifierKey.t) :
  (forall m, In m l <-> In m l') -> union l = union l'.
Proof.
  intros H. apply Z.bits_inj. intros i. rewrite !union_testbit.
  apply eq_true_iff_eq. rewrite !existsb_exists.
  split; intros (m & Hin & Hm); exists m; (split; [now apply H|assumption]).
Qed.

Lemma union_fits (l : list ModifierKey.t) : 0 <= union l < 2 ^ 4.
Proof.
  induction l as [|m l IH]; cbn [union fold_right]; [lia|].
  fold (union l). apply lor_fits; [lia| |assumption].
  apply ModifierKey_value_fits.
Qed.

Lemma existsb_pointwise {A : Type} (f g : A -> bool) (l : list A) :
  (forall a, f a = g a) -> existsb f l = existsb g l.
Proof.
  intros H. induction l as [|a l IH]; [reflexivity|].
  cbn [existsb]. now rewrite H, IH.
Qed.

Lemma Modifiers_has_union (k : ModifierKey.t) (l : list ModifierKey.t) :
  k <> ModifierKey.None ->
  Modifiers.has k {| Modifiers.data := union l |}
  = existsb (ModifierKey.eqb k) l.
Proof.
  intros Hk. rewrite Modifiers_has_bit. cbn [Modifiers.data].
  destruct k; try congruence; cbn [ModifierKey.bit];
    rewrite union_testbit; apply existsb_pointwise; intros m;
    destruct m; reflexivity.
Qed.

(** X11: [is] on a list does not depend on the order of the list nor on
    repetitions in it; on the empty list it is [empty ()] and on a list
    of one key [is] of that key; and on a word of modifier bits it is
    true exactly when the keys that [has] finds are the keys listed. *)
Theorem Modifiers_is_list_set :
  (forall s, Modifiers.is_list [] s = Modifiers.empty s)
  /\ (forall m s, Modifiers.is_list [m] s = Modifiers.is_ m s)
  /\ (forall l l' s,
        (forall m, In m l <-> In m l') ->
        Modifiers.is_list l s = Modifiers.is_list l' s)
  /\ (forall l s,
        Modifiers_valid s ->
        (Modifiers.is_list l s = true
         <-> forall k, k <> ModifierKey.None ->
                       (Modifiers.has k s = true <-> In k l))).
Proof.
  split; [reflexivity|].
  split.
  { intros m s. unfold Modifiers.is_list, Modifiers.is_.
    cbn [fold_left]. now rewrite Z.lor_0_l. }
  split.
  { intros l l' s H. unfold Modifiers.is_list.
    now rewrite !fold_left_lor, (union_ext l l' H). }
  intros l s Hs.
  assert (Hin : forall k, k <> ModifierKey.None ->
                          (existsb (ModifierKey.eqb k) l = true <-> In k l)).
  { intros k _. rewrite existsb_exists. split.
    - intros (m & Hm & Heq). apply ModifierKey_eqb_eq in Heq. now subst.
    - intros H. exists k. split; [assumption|].
      now apply ModifierKey_eqb_eq. }
  unfold Modifiers.is_list. rewrite fold_left_lor, Z.lor_0_l, Z.eqb_eq.
  split.
  - intros Hd k Hk. destruct s as [d]. cbn [Modifiers.data] in Hd. subst d.
    rewrite Modifiers_has_union by assumption. now apply Hin.
  - intros H.
    rewrite (Modifiers_ext s {| Modifiers.data := union l |});
      [reflexivity|assumption|apply union_fits|].
    intros k.
    destruct k;
      try (apply eq_true_iff_eq;
           rewrite Modifiers_has_union, H, Hin by discriminate;
           reflexivity).
    now rewrite !(Modifiers_has_bit ModifierKey.None).
Qed.

(** ** Sets of buttons and their words *)

Lemma Position_value_valid (p : MouseEventButtonState.Position) :
  0 <= MouseEventButtonState.value p < 2 ^ 6
  /\ Z.testbit (MouseEventButtonState.value p) 0 = false.
Proof. destruct p; cbn; split; (lia || reflexivity). Qed.

Lemma ButtonState_valid_step (s : MouseEventButtonState.t) (op : ButtonOp) :
  ButtonState_valid s -> ButtonState_valid (ButtonState_step s op).
Proof.
  unfold ButtonState_valid. intros [Hs H0].
  destruct op as [p|p|]; cbn [ButtonState_step MouseEventButtonState.add
    MouseEventButtonState.set MouseEventButtonState.clear
    MouseEventButtonState.data].
  - destruct (Position_value_valid p) as [Hp Hp0]. split.
    + apply lor_fits; [lia|assumption|assumption].
    + now rewrite Z.lor_spec, H0, Hp0.
  - apply Position_value_valid.
  - split; [lia|reflexivity].
Qed.

Lemma ButtonState_valid_run (ops : list ButtonOp)
  (s : MouseEventButtonState.t) :
  ButtonState_valid s -> ButtonState_valid (ButtonState_run ops s).
Proof.
  revert s. induction ops as [|op ops IH]; intros s H; [assumption|].
  apply IH. now apply ButtonState_valid_step.
Qed.

Lemma ButtonState_valid_init : ButtonState_valid MouseEventButtonState.init.
Proof. split; [cbn; lia|reflexivity]. Qed.

Lemma ButtonState_ext (s s' : MouseEventButtonState.t) :
  ButtonState_valid s -> ButtonState_valid s' ->
  (forall p, MouseEventButtonState.has p s = MouseEventButtonState.has p s')
  -> s = s'.
Proof.
  unfold ButtonState_valid. intros [Hs Hs0] [Hs' Hs'0] H.
  pose proof (H MouseEventButtonState.Left) as H1.
  pose proof (H MouseEventButtonState.Middle) as H2.
  pose proof (H MouseEventButtonState.Right) as H3.
  pose proof (H MouseEventButtonState.Fourth) as H4.
  pose proof (H MouseEventButtonState.Fifth) as H5.
  rewrite !ButtonState_has_bit in H1, H2, H3, H4, H5.
  cbn [MouseEventButtonState.bit] in H1, H2, H3, H4, H5.
  destruct s as [d], s' as [d']. cbn [MouseEventButtonState.data] in *.
  f_equal. apply Z.bits_inj'. intros n Hn.
  destruct (Z.ltb_spec n 6) as [Hlt|Hge].
  - assert (Hcases : n = 0 \/ n = 1 \/ n = 2 \/ n = 3 \/ n = 4 \/ n = 5)
      by lia.
    destruct Hcases as [->|[->|[->|[->|[->| ->]]]]];
      congruence.
  - now rewrite (testbit_high 6 d), (testbit_high 6 d') by lia.
Qed.

Lemma ButtonState_has_set (p p' : MouseEventButtonState.Position)
  (s : MouseEventButtonState.t) :
  MouseEventButtonState.has p' (MouseEventButtonState.set p s)
  = MouseEventButtonState.Position_eqb p' p.
Proof. destruct p, p'; reflexivity. Qed.

(** X12: the calls of [MouseEventButtonState] keep the word within the
    bits of the five named positions, bit 0 clear, from the
    default-constructed state on.  Among such words, two states are
    equal ([operator==]) exactly when [has] agrees on every position,
    [empty ()] is true exactly when [has] is false of every position,
    and [is (p)], so [isLeft ()], [isMiddle ()] and [isRight ()],
    exactly when [has] is true of [p] and of no other position. *)
Theorem ButtonState_valid_words :
  (forall ops,
     ButtonState_valid (ButtonState_run ops MouseEventButtonState.init))
  /\ (forall s op,
        ButtonState_valid s -> ButtonState_valid (ButtonState_step s op))
  /\ (forall s s',
        ButtonState_valid s -> ButtonState_valid s' ->
        ((forall p, MouseEventButtonState.has p s
                    = MouseEventButtonState.has p s')
         <-> MouseEventButtonState.operator_eq s s' = true))
  /\ (forall s,
        ButtonState_valid s ->
        (MouseEventButtonState.empty s = true
         <-> forall p, MouseEventButtonState.has p s = false))
  /\ (forall s p,
        ButtonState_valid s ->
        (MouseEventButtonState.is_ p s = true
         <-> forall p', MouseEventButtonState.has p' s
                        = MouseEventButtonState.Position_eqb p' p)).
Proof.
  split; [|split; [|split; [|split]]].
  - intros ops. apply ButtonState_valid_run, ButtonState_valid_init.
  - exact ButtonState_valid_step.
  - intros s s' Hs Hs'. unfold MouseEventButtonState.operator_eq.
    rewrite Z.eqb_eq. split.
    + intros H. now rewrite (ButtonState_ext s s' Hs Hs' H).
    + intros H p. unfold MouseEventButtonState.has. now rewrite H.
  - intros s Hs. split.
    + intros H p. apply Z.eqb_eq in H. destruct s as [d].
      cbn [MouseEventButtonState.data] in H. subst d. reflexivity.
    + intros H.
      rewrite (ButtonState_ext s MouseEventButtonState.init Hs
                 ButtonState_valid_init); [reflexivity|].
      intros p. now rewrite H.
  - intros s p Hs.
    assert (Hp : ButtonState_valid (MouseEventButtonState.set p s))
      by apply (ButtonState_valid_step s (ButtonSet p) Hs).
    split.
    + intros H p'. apply Z.eqb_eq in H.
      rewrite <- (ButtonState_has_set p p' s).
      destruct s as [d]. cbn [MouseEventButtonState.data] in H. now subst d.
    + intros H.
      rewrite (ButtonState_ext s (MouseEventButtonState.set p s) Hs Hp).
      * apply Z.eqb_refl.
      * intros p'. now rewrite H, ButtonState_has_set.
Qed.

(** X13: [isOther (index)] has a value for an index below 32.  At the
    bit of a named position it is [is] of that position ([isOther (1)]
    is [isLeft ()], [isOther (2)] [isMiddle ()], [isOther (3)]
    [isRight ()]); and on a state that the calls of the struct have
    built it is true at no other index: not at 0, and not from 6 on. *)
Theorem isOther_named_positions (s : MouseEventButtonState.t) :
  (forall p,
     MouseEventButtonState.isOther (MouseEventButtonState.bit p) s
     = Some (MouseEventButtonState.is_ p s))
  /\ MouseEventButtonState.isOther 1 s
     = Some (MouseEventButtonState.isLeft s)
  /\ MouseEventButtonState.isOther 2 s
     = Some (MouseEventButtonState.isMiddle s)
  /\ MouseEventButtonState.isOther 3 s
     = Some (MouseEventButtonState.isRight s)
  /\ (forall index,
        0 <= index ->
        (MouseEventButtonState.isOther index s <> None <-> index < 32))
  /\ (forall index,
        ButtonState_valid s -> 0 <= index ->
        MouseEventButtonState.isOther index s = Some true ->
        exists p, index = MouseEventButtonState.bit p
                  /\ MouseEventButtonState.is_ p s = true).
Proof.
  split; [intros p; destruct p; reflexivity|].
  split; [reflexivity|]. split; [reflexivity|]. split; [reflexivity|].
  split.
  - intros index Hi. unfold MouseEventButtonState.isOther.
    destruct (Z.ltb_spec index 32); split; (congruence || lia).
  - intros index [Hs H0] Hi. unfold MouseEventButtonState.isOther.
    destruct (Z.ltb_spec index 32) as [Hlt|]; [|discriminate].
    intros H. injection H as H. apply Z.eqb_eq in H.
    unfold to_uint32 in H.
    rewrite Z.shiftl_1_l, Z.mod_small in H
      by (split; [apply Z.pow_nonneg; lia|apply Z.pow_lt_mono_r; lia]).
    destruct (Z.le_gt_cases 6 index) as [Hge|Hlt6].
    + pose proof (Z.pow_le_mono_r 2 6 index ltac:(lia) Hge). lia.
    + assert (Hcases : index = 0 \/ index = 1 \/ index = 2 \/ index = 3
                       \/ index = 4 \/ index = 5) by lia.
      destruct Hcases as [->|[->|[->|[->|[->| ->]]]]].
      * rewrite H in H0. discriminate H0.
      * exists MouseEventButtonState.Left. split; [reflexivity|].
        now apply Z.eqb_eq.
      * exists MouseEventButtonState.Middle. split; [reflexivity|].
        now apply Z.eqb_eq.
      * exists MouseEventButtonState.Right. split; [reflexivity|].
        now apply Z.eqb_eq.
      * exists MouseEventButtonState.Fourth. split; [reflexivity|].
        now apply Z.eqb_eq.
      * exists MouseEventButtonState.Fifth. split; [reflexivity|].
        now apply Z.eqb_eq.
Qed.


(** ** Reading the legacy button state back *)

Lemma buttons_state_decodes (mods : Modifiers.t)
  (buttons : MouseEventButtonState.t) :
  button_constants_apart ->
  let state := buttonStateFromButtons buttons
                 (buttonStateFromEventModifiers mods) in
  Z.land state kControl
    = (if Modifiers.has ModifierKey.Control mods then kControl else 0)
  /\ Z.land state kShift
     = (if Modifiers.has ModifierKey.Shift mods then kShift else 0)
  /\ Z.land state kAlt
     = (if Modifiers.has ModifierKey.Alt mods then kAlt else 0)
  /\ Z.land state kLButton
     = (if MouseEventButtonState.has MouseEventButtonState.Left buttons
        then kLButton else 0)
  /\ Z.land state kRButton
     = (if MouseEventButtonState.has MouseEventButtonState.Right buttons
        then kRButton else 0)
  /\ Z.land state kMButton
     = (if MouseEventButtonState.has MouseEventButtonState.Middle buttons
        then kMButton else 0)
  /\ Z.land state kButton4
     = (if MouseEventButtonState.has MouseEventButtonState.Fourth buttons
        then kButton4 else 0)
  /\ Z.land state kButton5
     = (if MouseEventButtonState.has MouseEventButtonState.Fifth buttons
        then kButton5 else 0).
Proof.
  intros H state. subst state.
  unfold button_constants_apart in H. open_apart H.
  unfold buttonStateFromButtons, buttonStateFromEventModifiers,
    CButtonState_init.
  cbv zeta.
  split; [|split; [|split; [|split; [|split; [|split; [|split]]]]]];
    land_chain.
Qed.

(** X14: with the nine constants of the legacy button state apart from
    each other, the state [buttonStateFromMouseEvent] answers can be
    read back: it holds [kControl], [kShift], [kAlt] exactly when the
    event has that modifier, and [kLButton], [kRButton], [kMButton],
    [kButton4], [kButton5] exactly when its button state has [Left],
    [Right], [Middle], [Fourth], [Fifth]. *)
Theorem buttonStateFromMouseEvent_decodes (event : Object) (e : MouseEvent)
  (state : CButtonState) :
  button_constants_apart ->
  MouseEvent_of event = Some e ->
  buttonStateFromMouseEvent event = Some state ->
  let mods := modifiers (MousePositionEvent_base (MouseEvent_base e)) in
  let buttons := buttonState e in
  (holds state kControl <-> Modifiers.has ModifierKey.Control mods = true)
  /\ (holds state kShift <-> Modifiers.has ModifierKey.Shift mods = true)
  /\ (holds state kAlt <-> Modifiers.has ModifierKey.Alt mods = true)
  /\ (holds state kLButton
      <-> MouseEventButtonState.has MouseEventButtonState.Left buttons
          = true)
  /\ (holds state kRButton
      <-> MouseEventButtonState.has MouseEventButtonState.Right buttons
          = true)
  /\ (holds state kMButton
      <-> MouseEventButtonState.has MouseEventButtonState.Middle buttons
          = true)
  /\ (holds state kButton4
      <-> MouseEventButtonState.has MouseEventButtonState.Fourth buttons
          = true)
  /\ (holds state kButton5
      <-> MouseEventButtonState.has MouseEventButtonState.Fifth buttons
          = true).
Proof.
  intros Hapart He Hstate mods buttons.
  pose proof (buttons_state_decodes mods buttons Hapart) as Hdec.
  cbv zeta in Hdec.
  unfold buttonStateFromMouseEvent in Hstate. rewrite He in Hstate.
  fold mods buttons in Hstate.
  set (s0 := buttonStateFromButtons buttons
               (buttonStateFromEventModifiers mods)) in *.
  assert (Hs : exists b : bool,
             state = if b then CButtonState_or s0 kDoubleClick else s0).
  { destruct (asMouseDownEvent event) as [p|].
    - destruct (MouseDownEvent_of p) as [d|]; [|discriminate].
      injection Hstate as <-. now exists (1 <? clickCount d).
    - injection Hstate as <-. now exists false. }
  destruct Hs as [b ->].
  unfold button_constants_apart in Hapart. open_apart Hapart.
  destruct Hdec as (Hd1 & Hd2 & Hd3 & Hd4 & Hd5 & Hd6 & Hd7 & Hd8).
  split; [|split; [|split; [|split; [|split; [|split; [|split]]]]]];
    (apply holds_if; [assumption|]);
    rewrite keep_step by assumption; assumption.
Qed.


(** ** The legacy virtual key and key code *)

Lemma toVstVirtualKey_low (key : VirtualKey.t) :
  0 <= key <= VirtualKey.Equals -> toVstVirtualKey key = key.
Proof.
  unfold VirtualKey.Equals. intros H.
  unfold toVstVirtualKey, to_uint32, to_uchar.
  rewrite (Z.mod_small key) by lia.
  change (VirtualKey.Equals mod 2 ^ 32) with 57.
  destruct (Z.leb_spec key 57); [|lia].
  apply Z.mod_small. lia.
Qed.

Lemma toVstVirtualKey_high (key : VirtualKey.t) :
  VirtualKey.Equals < key < 2 ^ 32 -> toVstVirtualKey key = 0.
Proof.
  unfold VirtualKey.Equals. intros H.
  unfold toVstVirtualKey, to_uint32.
  rewrite (Z.mod_small key) by lia.
  change (VirtualKey.Equals mod 2 ^ 32) with 57.
  destruct (Z.leb_spec key 57); [lia|reflexivity].
Qed.

(** X15: the answer 0 of [toVstVirtualKey] does not tell a key that
    cannot be mapped from [VirtualKey::None]: the answer is 0 exactly
    for [None] and for the keys beyond [Equals].  On the other keys the
    function is one to one, and it maps its own answers to themselves. *)
Theorem toVstVirtualKey_sentinel (key key' : VirtualKey.t) :
  is_uint32 key -> is_uint32 key' ->
  (toVstVirtualKey key = 0
   <-> key = VirtualKey.None \/ VirtualKey.Equals < key)
  /\ (toVstVirtualKey key = toVstVirtualKey key' ->
      toVstVirtualKey key <> 0 -> key = key')
  /\ toVstVirtualKey (toVstVirtualKey key) = toVstVirtualKey key.
Proof.
  unfold is_uint32, VirtualKey.None. intros Hk Hk'.
  assert (Hval : forall k, 0 <= k < 2 ^ 32 ->
                   (k <= VirtualKey.Equals /\ toVstVirtualKey k = k)
                   \/ (VirtualKey.Equals < k /\ toVstVirtualKey k = 0)).
  { intros k H. destruct (Z.le_gt_cases k VirtualKey.Equals).
    - left. split; [assumption|]. apply toVstVirtualKey_low. lia.
    - right. split; [assumption|]. apply toVstVirtualKey_high. lia. }
  destruct (Hval key Hk) as [[Hle Hv]|[Hgt Hv]];
    destruct (Hval key' Hk') as [[Hle' Hv']|[Hgt' Hv']];
    rewrite ?Hv, ?Hv'; unfold VirtualKey.Equals in *;
    repeat apply conj; intros; try lia; try assumption; reflexivity.
Qed.

Lemma keep_step_modifier (b : bool) (modifier c flag : Z) :
  0 <= flag < 2 ^ 8 -> Z.land c flag = 0 ->
  Z.land (if b then modifier_or modifier c else modifier) flag
  = Z.land modifier flag.
Proof.
  intros Hf Hc. destruct b; [|reflexivity]. unfold modifier_or.
  now rewrite land_to_uchar, Z.land_lor_distr_l, Hc, Z.lor_0_r by assumption.
Qed.

Lemma hit_step_modifier (b : bool) (modifier flag : Z) :
  0 <= flag < 2 ^ 8 ->
  Z.land (if b then modifier_or modifier flag else modifier) flag
  = if b then flag else Z.land modifier flag.
Proof.
  intros Hf. destruct b; [|reflexivity]. unfold modifier_or.
  rewrite land_to_uchar by assumption. apply holds_lor_r.
Qed.

(** X16: [toVstKeyCode] reads the character, the virtual key and the
    modifiers of a keyboard event and nothing else: events that differ
    in their [Event] members (a key up and the key down before it) or in
    [isRepeat] have the same key code.  With the four [MODIFIER_]
    constants apart from each other and within the modifier byte, the
    byte holds each constant exactly when the event has the modifier it
    stands for, [Super] for [MODIFIER_COMMAND]; and a character below
    [2 ^ 31] is stored as it is. *)
Theorem toVstKeyCode_decodes (event : KeyboardEvent) :
  modifier_constants_apart ->
  let mods := modifiers (KeyboardEvent_base event) in
  let keyCode := toVstKeyCode event in
  (holds (VstKeyCode_modifier keyCode) MODIFIER_SHIFT
   <-> Modifiers.has ModifierKey.Shift mods = true)
  /\ (holds (VstKeyCode_modifier keyCode) MODIFIER_ALTERNATE
      <-> Modifiers.has ModifierKey.Alt mods = true)
  /\ (holds (VstKeyCode_modifier keyCode) MODIFIER_CONTROL
      <-> Modifiers.has ModifierKey.Control mods = true)
  /\ (holds (VstKeyCode_modifier keyCode) MODIFIER_COMMAND
      <-> Modifiers.has ModifierKey.Super mods = true)
  /\ (0 <= character event < 2 ^ 31 ->
      VstKeyCode_character keyCode = character event)
  /\ (forall (f : Event -> Event) (r : bool),
        toVstKeyCode
          {| KeyboardEvent_base :=
               ModifierEvent_map f (KeyboardEvent_base event);
             character := character event;
             virt := virt event;
             isRepeat := r |}
        = keyCode).
Proof.
  intros [Hapart Hbyte] mods keyCode. subst keyCode.
  open_apart Hapart.
  repeat match goal with
         | F : Forall _ (_ :: _) |- _ => inversion_clear F
         end.
  unfold toVstKeyCode. fold mods.
  cbn [VstKeyCode_modifier VstKeyCode_character]. cbv zeta.
  split; [|split; [|split; [|split; [|split]]]].
  - apply holds_if; [assumption|].
    repeat (rewrite keep_step_modifier by assumption).
    rewrite hit_step_modifier by assumption. now rewrite Z.land_0_l.
  - apply holds_if; [assumption|].
    repeat (rewrite keep_step_modifier by assumption).
    rewrite hit_step_modifier by assumption.
    repeat (rewrite keep_step_modifier by assumption).
    now rewrite Z.land_0_l.
  - apply holds_if; [assumption|].
    repeat (rewrite keep_step_modifier by assumption).
    rewrite hit_step_modifier by assumption.
    repeat (rewrite keep_step_modifier by assumption).
    now rewrite Z.land_0_l.
  - apply holds_if; [assumption|].
    rewrite hit_step_modifier by assumption.
    repeat (rewrite keep_step_modifier by assumption).
    now rewrite Z.land_0_l.
  - intros Hc. unfold to_int32. rewrite Z.mod_small by lia. lia.
  - reflexivity.
Qed.


(** X17: whatever the constants are, the state that
    [buttonStateFromMouseEvent] answers holds every flag that
    [buttonStateFromEventModifiers] answers for the modifiers of the
    event; and it is that of the modifiers and the buttons alone, with
    no double click, on an event outside the mouse down family and on
    one whose [clickCount] is at most 1. *)
Theorem buttonStateFromMouseEvent_extends_modifiers (event : Object)
  (e : MouseEvent) (state : CButtonState) :
  MouseEvent_of event = Some e ->
  buttonStateFromMouseEvent event = Some state ->
  let mods := modifiers (MousePositionEvent_base (MouseEvent_base e)) in
  (forall flag,
     holds (buttonStateFromEventModifiers mods) flag -> holds state flag)
  /\ (asMouseDownEvent event = None ->
      state = buttonStateFromButtons (buttonState e)
                (buttonStateFromEventModifiers mods))
  /\ (forall d,
        MouseDownEvent_of event = Some d -> clickCount d <= 1 ->
        state = buttonStateFromButtons (buttonState e)
                  (buttonStateFromEventModifiers mods)).
Proof.
  intros He Hstate mods.
  unfold buttonStateFromMouseEvent in Hstate. rewrite He in Hstate.
  fold mods in Hstate.
  split; [|split].
  - intros flag Hflag.
    assert (Hs0 : holds (buttonStateFromButtons (buttonState e)
                           (buttonStateFromEventModifiers mods)) flag).
    { unfold buttonStateFromButtons. cbv zeta.
      do 5 apply holds_step. assumption. }
    destruct (asMouseDownEvent event) as [p|].
    + destruct (MouseDownEvent_of p) as [d|]; [|discriminate].
      injection Hstate as <-. now apply holds_step.
    + now injection Hstate as <-.
  - intros Hcast. rewrite Hcast in Hstate. now injection Hstate as <-.
  - intros d Hd Hcc.
    destruct (asMouseDownEvent event) as [p|] eqn:Hcast.
    + apply asMouseDownEvent_Some in Hcast as [-> _].
      rewrite Hd in Hstate. injection Hstate as <-.
      destruct (Z.ltb_spec 1 (clickCount d)); [lia|reflexivity].
    + now injection Hstate as <-.
Qed.

End Events.

(** * Instances

    The statements above at concrete events.  Points are pairs of
    integers here, and the constants are those of the toolkit's
    [cbuttonstate.h] ([kLButton = 1 << 1], [kMButton = 1 << 2],
    [kRButton = 1 << 3], [kShift = 1 << 4], [kControl = 1 << 5],
    [kAlt = 1 << 6], [kButton4 = 1 << 8], [kButton5 = 1 << 9],
    [kDoubleClick = 1 << 10]) and of [vstkeycode.h]
    ([MODIFIER_SHIFT = 1 << 0], [MODIFIER_ALTERNATE = 1 << 1],
    [MODIFIER_COMMAND = 1 << 2], [MODIFIER_CONTROL = 1 << 3]). *)

(** [noEvent ()] has discriminant [Unknown]: every query cast answers
    null on it. *)
Lemma query_cast_accepted_sets_witness :
  let o := noEvent (Z * Z) Z Z 1 1000 in
  asMousePositionEvent (Z * Z) Z Z o = None
  /\ asMouseEvent (Z * Z) Z Z o = None
  /\ asMouseDownEvent (Z * Z) Z Z o = None
  /\ asModifierEvent (Z * Z) Z Z o = None
  /\ asKeyboardEvent (Z * Z) Z Z o = None.
Proof.
  intros o.
  apply (query_cast_accepted_sets (Z * Z) Z Z o).
  simpl. left. reflexivity.
Defined.

(** The claim C5 as stated fails: a key down event that a key up event
    is move-assigned to has the discriminant [KeyUp] afterwards, so the
    discriminant a constructor sets does change. *)
Lemma discriminant_changes_on_move_assignment :
  let k := ObjKeyboardEvent (Z * Z) Z Z (KeyboardEvent_ctor_default 1 1000) in
  let other := KeyboardEvent_event (KeyboardEvent_ctor 2 1001 EventType.KeyUp)
  in
  (type (Event_of (Z * Z) Z Z k) = EventType.KeyDown
   /\ type (Event_of (Z * Z) Z Z (Object_move_assign (Z * Z) Z Z k other))
      = EventType.KeyUp)
  /\ ~ (forall self other' : Event,
          type (Event_move_assign self other') = type self).
Proof.
  intros k other. split; [split; reflexivity|].
  intros H.
  specialize (H (KeyboardEvent_event (KeyboardEvent_ctor_default 1 1000))
                other).
  discriminate H.
Qed.

(** The claim C3 as stated fails: [asMousePositionEvent] accepts
    [MouseUp] (3) and [MouseEnter] (5) and rejects [MouseCancel] (4)
    between them, so the accepted sets are not all contiguous ranges. *)
Lemma accepted_sets_not_all_contiguous :
  (accepts (Z * Z) Z Z (asMousePositionEvent (Z * Z) Z Z) EventType.MouseUp
     = true
   /\ accepts (Z * Z) Z Z (asMousePositionEvent (Z * Z) Z Z)
        EventType.MouseEnter = true
   /\ EventType.value EventType.MouseUp
      <= EventType.value EventType.MouseCancel
      <= EventType.value EventType.MouseEnter
   /\ accepts (Z * Z) Z Z (asMousePositionEvent (Z * Z) Z Z)
        EventType.MouseCancel = false)
  /\ ~ (contiguous (accepts (Z * Z) Z Z (asMousePositionEvent (Z * Z) Z Z))
        /\ contiguous (accepts (Z * Z) Z Z (asMouseEvent (Z * Z) Z Z))
        /\ contiguous (accepts (Z * Z) Z Z (asMouseDownEvent (Z * Z) Z Z))
        /\ contiguous (accepts (Z * Z) Z Z (asModifierEvent (Z * Z) Z Z))
        /\ contiguous (accepts (Z * Z) Z Z (asKeyboardEvent (Z * Z) Z Z))).
Proof.
  split.
  - repeat split; simpl; lia.
  - intros [H _].
    specialize (H EventType.MouseUp EventType.MouseCancel
                  EventType.MouseEnter eq_refl eq_refl).
    simpl in H. discriminate H. lia.
Qed.

(** [MouseWheel], which [asModifierEvent] accepts, lies between
    [MouseDown] and [KeyDown]; a mouse wheel event passes the assertion
    of [castMousePositionEvent]. *)
Lemma accepted_sets_ranges_witness :
  let w := ObjMouseWheelEvent (Z * Z) Z Z
             (MouseWheelEvent_ctor (Z * Z) (0, 0) Z 0 4 1003) in
  (EventType.value EventType.MouseDown
   <= EventType.value EventType.MouseWheel
   <= EventType.value EventType.KeyDown)
  /\ castMousePositionEvent_assert (Z * Z) Z Z w = true.
Proof.
  intros w.
  pose proof (accepted_sets_ranges (Z * Z) (0, 0) Z 0 Z)
    as (_ & _ & _ & _ & Hmod & Hpos & _).
  split.
  - apply (Hmod EventType.MouseWheel). reflexivity.
  - apply (Hpos w). discriminate.
Defined.

(** A double click with the left button, [Shift] held, at (10, 20). *)
Lemma buttonStateFromMouseEvent_double_click_witness :
  let d :=
    MouseDownEvent_set_modifiers_clickCount (Z * Z)
      (Modifiers.add ModifierKey.Shift Modifiers.init) 2
      (MouseDownEvent_ctor_pos (Z * Z) (0, 0) 1 1000 (10, 20)
         (MouseEventButtonState.of_Position MouseEventButtonState.Left)) in
  let o := ObjMouseDownEvent (Z * Z) Z Z d in
  (exists state,
     buttonStateFromMouseEvent (Z * Z) Z Z 32 16 64 2 8 4 256 512 1024 o
       = Some state
     /\ holds state 2 /\ holds state 1024)
  /\ (holds 1042 1024
      <-> exists d',
            MouseDownEvent_of (Z * Z) Z Z o = Some d'
            /\ In (type (Event_of (Z * Z) Z Z o))
                 documented_asMouseDownEvent
            /\ 1 < clickCount (Z * Z) d')
  /\ buttonStateFromMouseEvent (Z * Z) Z Z 32 16 64 2 8 4 256 512 1024 o
     <> None.
Proof.
  intros d o.
  pose proof (buttonStateFromMouseEvent_double_click
                (Z * Z) Z Z 32 16 64 2 8 4 256 512 1024) as [H1 [H2 H3]].
  split; [|split].
  - apply H1; [simpl; tauto|reflexivity|reflexivity].
  - apply H2; [|reflexivity].
    split; [discriminate|repeat constructor].
  - apply (H3 o (MouseDownEvent_base (Z * Z) d)); [reflexivity|].
    intros _. discriminate.
Defined.

(** A virtual key beyond [Equals] and the last enumerator. *)
Lemma toVstVirtualKey_total_witness :
  (is_uint32 300 /\ toVstVirtualKey 300 = 0)
  /\ (is_uint32 VirtualKey.Equals
      /\ toVstVirtualKey VirtualKey.Equals = VirtualKey.Equals).
Proof.
  assert (H300 : is_uint32 300) by (unfold is_uint32; lia).
  assert (H57 : is_uint32 VirtualKey.Equals)
    by (unfold is_uint32, VirtualKey.Equals; lia).
  split; (split; [assumption|]).
  - apply (toVstVirtualKey_total 300 H300). unfold VirtualKey.Equals. lia.
  - apply (toVstVirtualKey_total VirtualKey.Equals H57). lia.
Defined.

(** A mouse up event at (10, 20) read back through the four casts that
    accept it, and a key up event through the two that accept it. *)
Lemma query_cast_roundtrip_witness :
  let d := MouseUpEvent_ctor_pos (Z * Z) (0, 0) 1 1000 (10, 20)
             (MouseEventButtonState.of_Position
                MouseEventButtonState.Right) in
  let k := KeyboardEvent_ctor 2 1001 EventType.KeyUp in
  (asMouseDownEvent (Z * Z) Z Z (ObjMouseDownEvent (Z * Z) Z Z d)
     = Some (ObjMouseDownEvent (Z * Z) Z Z d)
   /\ MouseDownEvent_of (Z * Z) Z Z (ObjMouseDownEvent (Z * Z) Z Z d)
      = Some d)
  /\ (asKeyboardEvent (Z * Z) Z Z (ObjKeyboardEvent (Z * Z) Z Z k)
        = Some (ObjKeyboardEvent (Z * Z) Z Z k)
      /\ KeyboardEvent_of (Z * Z) Z Z (ObjKeyboardEvent (Z * Z) Z Z k)
         = Some k).
Proof.
  intros d k.
  pose proof (query_cast_roundtrip (Z * Z) (0, 0) Z Z)
    as (_ & Hdown & _ & _ & _ & Hkey).
  split.
  - assert (Hin : In (type (MouseDownEvent_event (Z * Z) d))
                     documented_asMouseDownEvent) by (simpl; tauto).
    destruct (Hdown d Hin) as (H1 & H2 & _). split; assumption.
  - assert (Hin : In (type (KeyboardEvent_event k))
                     [EventType.KeyDown; EventType.KeyUp]) by (simpl; tauto).
    destruct (Hkey k Hin) as (H1 & H2 & _). split; assumption.
Defined.

(** A key down event with [Shift] and [Super] held. *)
Lemma legacy_bridges_differ_on_super_witness :
  let mods := Modifiers.add ModifierKey.Super
                (Modifiers.add ModifierKey.Shift Modifiers.init) in
  let k := KeyboardEvent_set_modifiers mods
             (KeyboardEvent_ctor_default 3 1002) in
  command_apart 1 2 8 4
  /\ holds (VstKeyCode_modifier (toVstKeyCode 1 2 8 4 k)) 4
  /\ toVstKeyCode 1 2 8 4
       (KeyboardEvent_set_modifiers
          (Modifiers.remove ModifierKey.Super mods) k)
     <> toVstKeyCode 1 2 8 4 k
  /\ buttonStateFromEventModifiers 32 16 64
       (Modifiers.remove ModifierKey.Super mods)
     = buttonStateFromEventModifiers 32 16 64 mods
  /\ modifier_buttons_apart 32 16 64
  /\ holds (buttonStateFromEventModifiers 32 16 64 mods) 16
  /\ ~ holds (buttonStateFromEventModifiers 32 16 64 mods) 32
  /\ buttonStateFromEventModifiers 32 16 64
       (Modifiers.add ModifierKey.Super Modifiers.init)
     = CButtonState_init.
Proof.
  intros mods k.
  assert (Hapart : command_apart 1 2 8 4).
  { split; [lia|repeat constructor]. }
  assert (Hbuttons : modifier_buttons_apart 32 16 64).
  { cbn. repeat split; try discriminate; repeat constructor. }
  pose proof (legacy_bridges_differ_on_super 32 16 64 1 2 8 4)
    as (Hremove & _ & Hcommand & Hdiffer & _ & Hholds & Hnone & Hiff).
  split; [exact Hapart|].
  split; [apply (Hcommand Hapart k); reflexivity|].
  split; [apply (Hdiffer Hapart k); reflexivity|].
  split; [apply Hremove|].
  split; [exact Hbuttons|].
  split; [apply (Hholds mods); reflexivity|].
  split.
  - intros H. apply (Hiff Hbuttons mods) in H. discriminate H.
  - apply Hnone; reflexivity.
Defined.

(** * Instances of the further properties *)

(** A mouse down event: accepted by [asMouseDownEvent], hence by
    [asMouseEvent] and by [asModifierEvent]. *)
Lemma query_casts_nested_witness :
  let o := ObjMouseDownEvent (Z * Z) Z Z
             (MouseDownEvent_ctor (Z * Z) (0, 0) 1 1000) in
  asMouseEvent (Z * Z) Z Z o <> None
  /\ asModifierEvent (Z * Z) Z Z o <> None.
Proof.
  intros o.
  destruct (query_casts_nested (Z * Z) Z Z o) as (H1 & _ & H3 & _).
  split; [apply H1|apply H3]; discriminate.
Defined.

(** A mouse enter event with [Shift] held. *)
Lemma asModifierEvent_rejects_enter_exit_zoom_witness :
  let o := ObjMouseEvent (Z * Z) Z Z
             (MouseEnterEvent_ctor_pos (Z * Z) (0, 0) 1 1000 (10, 20)
                MouseEventButtonState.init
                (Modifiers.add ModifierKey.Shift Modifiers.init)) in
  asMousePositionEvent (Z * Z) Z Z o = Some o
  /\ asModifierEvent (Z * Z) Z Z o = None.
Proof.
  intros o.
  destruct (asModifierEvent_rejects_enter_exit_zoom (Z * Z) Z Z o)
    as (H1 & H2 & _); [simpl; tauto|].
  split; assumption.
Defined.


(** A keyboard event constructed with [MouseDown]. *)
Lemma KeyboardEvent_with_mouse_discriminant_witness :
  let o := ObjKeyboardEvent (Z * Z) Z Z
             (KeyboardEvent_ctor 1 1000 EventType.MouseDown) in
  asMousePositionEvent (Z * Z) Z Z o = Some o
  /\ MousePositionEvent_of (Z * Z) Z Z o = None.
Proof.
  intros o.
  destruct (KeyboardEvent_with_mouse_discriminant (Z * Z) Z Z 1 1000
              EventType.MouseDown) as (H1 & H2 & _); [simpl; tauto|].
  split; assumption.
Defined.

(** A key down event passes the assertion of [castKeyboardEvent]. *)
Lemma assert_casts_on_constructed_witness :
  let o := ObjKeyboardEvent (Z * Z) Z Z (KeyboardEvent_ctor_default 1 1000) in
  KeyboardEvent_of (Z * Z) Z Z o <> None.
Proof.
  intros o.
  pose proof (assert_casts_on_constructed (Z * Z) Z Z) as [H _].
  destruct (H o eq_refl) as (_ & _ & _ & _ & _ & _ & _ & Hkey & _).
  apply Hkey. reflexivity.
Defined.

(** [add (Shift); add (Alt); remove (Alt)]: [Shift] is in, [Alt] out. *)
Lemma Modifiers_has_iff_added_and_kept_witness :
  let ops := [ModAdd ModifierKey.Shift; ModAdd ModifierKey.Alt;
              ModRemove ModifierKey.Alt] in
  Modifiers.has ModifierKey.Shift (Modifiers_run ops Modifiers.init) = true
  /\ ~ (exists pre op post,
          ops = pre ++ op :: post /\ sets_key ModifierKey.Alt op = true
          /\ forallb (keeps_key ModifierKey.Alt) post = true).
Proof.
  intros ops. split.
  - assert (Hk : ModifierKey.Shift <> ModifierKey.None) by discriminate.
    apply (proj1 (Modifiers_has_iff_added_and_kept ModifierKey.Shift ops Hk)).
    exists [], (ModAdd ModifierKey.Shift),
      [ModAdd ModifierKey.Alt; ModRemove ModifierKey.Alt].
    repeat split.
  - assert (Hk : ModifierKey.Alt <> ModifierKey.None) by discriminate.
    intros H.
    apply (proj1 (Modifiers_has_iff_added_and_kept ModifierKey.Alt ops Hk))
      in H.
    discriminate H.
Defined.

(** The set of [Shift] alone. *)
Lemma Modifiers_valid_words_witness :
  let s := Modifiers_run [ModAdd ModifierKey.Shift] Modifiers.init in
  Modifiers_valid s
  /\ Modifiers.has ModifierKey.Alt s = false.
Proof.
  intros s.
  destruct Modifiers_valid_words as (Hrun & _ & _ & _ & His).
  assert (Hs : Modifiers_valid s) by apply Hrun.
  split; [exact Hs|].
  rewrite (proj1 (His s ModifierKey.Shift Hs) eq_refl ModifierKey.Alt).
  reflexivity.
Defined.

Lemma Modifiers_calls_compose_witness :
  let s := Modifiers.add ModifierKey.Shift Modifiers.init in
  is_uint32 (Modifiers.data s)
  /\ Modifiers.add ModifierKey.Alt (Modifiers.remove ModifierKey.Alt s)
     = Modifiers.add ModifierKey.Alt s.
Proof.
  intros s.
  assert (Hs : is_uint32 (Modifiers.data s))
    by (unfold is_uint32; cbn; lia).
  split; [exact Hs|].
  apply (Modifiers_calls_compose ModifierKey.Alt ModifierKey.Super s Hs).
Defined.

(** [{Shift, Alt}] and [{Alt, Shift, Alt}] are the same list to [is]. *)
Lemma Modifiers_is_list_set_witness :
  let s := Modifiers.add ModifierKey.Alt
             (Modifiers.add ModifierKey.Shift Modifiers.init) in
  Modifiers.is_list [ModifierKey.Shift; ModifierKey.Alt] s
  = Modifiers.is_list [ModifierKey.Alt; ModifierKey.Shift; ModifierKey.Alt] s.
Proof.
  intros s.
  destruct Modifiers_is_list_set as (_ & _ & Hset & _).
  apply Hset. intros m. simpl. tauto.
Defined.

(** The state of the right button alone. *)
Lemma ButtonState_valid_words_witness :
  let s := ButtonState_run [ButtonAdd MouseEventButtonState.Right]
             MouseEventButtonState.init in
  ButtonState_valid s
  /\ MouseEventButtonState.has MouseEventButtonState.Left s = false.
Proof.
  intros s.
  destruct ButtonState_valid_words as (Hrun & _ & _ & _ & His).
  assert (Hs : ButtonState_valid s) by apply Hrun.
  split; [exact Hs|].
  rewrite (proj1 (His s MouseEventButtonState.Right Hs) eq_refl
             MouseEventButtonState.Left).
  reflexivity.
Defined.

Lemma isOther_named_positions_witness :
  let s := MouseEventButtonState.of_Position MouseEventButtonState.Right in
  ButtonState_valid s
  /\ exists p, 3 = MouseEventButtonState.bit p
               /\ MouseEventButtonState.is_ p s = true.
Proof.
  intros s.
  assert (Hs : ButtonState_valid s) by (split; [cbn; lia|reflexivity]).
  split; [exact Hs|].
  destruct (isOther_named_positions s) as (_ & _ & _ & _ & _ & H).
  apply (H 3 Hs); [lia|reflexivity].
Defined.

(** The double click of the left button with [Shift] held, read back. *)
Lemma buttonStateFromMouseEvent_decodes_witness :
  let d :=
    MouseDownEvent_set_modifiers_clickCount (Z * Z)
      (Modifiers.add ModifierKey.Shift Modifiers.init) 2
      (MouseDownEvent_ctor_pos (Z * Z) (0, 0) 1 1000 (10, 20)
         (MouseEventButtonState.of_Position MouseEventButtonState.Left)) in
  button_constants_apart 32 16 64 2 8 4 256 512 1024
  /\ holds 1042 16 /\ holds 1042 2 /\ ~ holds 1042 8.
Proof.
  intros d.
  assert (Hapart : button_constants_apart 32 16 64 2 8 4 256 512 1024).
  { cbn. repeat split; try discriminate; repeat constructor. }
  split; [exact Hapart|].
  destruct (buttonStateFromMouseEvent_decodes (Z * Z) Z Z
              32 16 64 2 8 4 256 512 1024
              (ObjMouseDownEvent (Z * Z) Z Z d)
              (MouseDownEvent_base (Z * Z) d) 1042 Hapart eq_refl eq_refl)
    as (_ & Hshift & _ & Hleft & Hright & _).
  split; [|split].
  - apply Hshift. reflexivity.
  - apply Hleft. reflexivity.
  - intros H. apply Hright in H. discriminate H.
Defined.

Lemma toVstVirtualKey_sentinel_witness :
  is_uint32 300 /\ is_uint32 VirtualKey.None
  /\ toVstVirtualKey 300 = 0.
Proof.
  assert (H300 : is_uint32 300) by (unfold is_uint32; lia).
  assert (H0 : is_uint32 VirtualKey.None)
    by (unfold is_uint32, VirtualKey.None; lia).
  split; [exact H300|split; [exact H0|]].
  apply (proj1 (toVstVirtualKey_sentinel 300 VirtualKey.None H300 H0)).
  right. unfold VirtualKey.Equals. lia.
Defined.

(** A key down event with [Shift] and [Super] held. *)
Lemma toVstKeyCode_decodes_witness :
  let k := KeyboardEvent_set_modifiers
             (Modifiers.add ModifierKey.Super
                (Modifiers.add ModifierKey.Shift Modifiers.init))
             (KeyboardEvent_ctor_default 3 1002) in
  modifier_constants_apart 1 2 8 4
  /\ holds (VstKeyCode_modifier (toVstKeyCode 1 2 8 4 k)) 4
  /\ ~ holds (VstKeyCode_modifier (toVstKeyCode 1 2 8 4 k)) 8.
Proof.
  intros k.
  assert (Hapart : modifier_constants_apart 1 2 8 4).
  { split; [cbn; repeat split; try discriminate; repeat constructor|].
    repeat constructor; lia. }
  split; [exact Hapart|].
  destruct (toVstKeyCode_decodes 1 2 8 4 k Hapart)
    as (_ & _ & Hcontrol & Hcommand & _).
  split.
  - apply Hcommand. reflexivity.
  - intros H. apply Hcontrol in H. discriminate H.
Defined.

Lemma buttonStateFromMouseEvent_extends_modifiers_witness :
  let e := MouseEnterEvent_ctor_pos (Z * Z) (0, 0) 1 1000 (10, 20)
             (MouseEventButtonState.of_Position MouseEventButtonState.Left)
             (Modifiers.add ModifierKey.Control Modifiers.init) in
  buttonStateFromMouseEvent (Z * Z) Z Z 32 16 64 2 8 4 256 512 1024
    (ObjMouseEvent (Z * Z) Z Z e) = Some 34
  /\ holds 34 32.
Proof.
  intros e.
  assert (Hstate :
            buttonStateFromMouseEvent (Z * Z) Z Z 32 16 64 2 8 4 256 512 1024
              (ObjMouseEvent (Z * Z) Z Z e) = Some 34) by reflexivity.
  split; [exact Hstate|].
  destruct (buttonStateFromMouseEvent_extends_modifiers (Z * Z) Z Z
              32 16 64 2 8 4 256 512 1024
              (ObjMouseEvent (Z * Z) Z Z e) e 34 eq_refl Hstate)
    as (Hflag & _).
  apply Hflag. reflexivity.
Defined.
